(** * ember-fetch: the adapter-fetch mixin

    A shallow embedding of [addon/mixins/adapter-fetch.ts] and the properties
    its specification states about it.

    JavaScript objects live in a store (a list of property maps addressed by
    index), so that the aliasing between the caller's option bag, its headers
    object and the descriptor handed to [fetch] is the one of the source.
    Functions of the source become computations in a state-and-exception
    monad; a promise is the computation that settles it: resolving is
    returning, rejecting is throwing. *)

From Stdlib Require Import ZArith Ascii String.
From stdpp Require Import gmap strings list fin_maps.

Open Scope string_scope.
Open Scope nat_scope.
Open Scope list_scope.

(** ** Values *)

(** The native error classes the code distinguishes with [instanceof]. *)
Inductive errclass := SyntaxError | TypeError | RangeError | Error.

(** JavaScript values.  Numbers are integers (no NaN, no fractions), an
    object is a reference into the store, and [VErr] is a native error
    object, of which only its class and message are kept. *)
Inductive value :=
  | VUndef
  | VNull
  | VBool (b : bool)
  | VNum (n : Z)
  | VStr (s : string)
  | VRef (l : nat)
  | VErr (c : errclass) (msg : string).

#[global] Instance errclass_eq_dec : EqDecision errclass.
Proof. solve_decision. Defined.
#[global] Instance value_eq_dec : EqDecision value.
Proof. solve_decision. Defined.

(** ToBoolean: what [if (v)], [!v], [a || b] and [a && b] test. *)
Definition truthy (v : value) : bool :=
  match v with
  | VUndef | VNull => false
  | VBool b => b
  | VNum n => negb (n =? 0)%Z
  | VStr s => negb (String.eqb s "")
  | VRef _ | VErr _ _ => true
  end.

(** [a || b] *)
Definition or_else (a b : value) : value := if truthy a then a else b.

(** [v === 'lit'] for a string literal. *)
Definition is_string (v : value) (lit : string) : bool :=
  match v with
  | VStr s => String.eqb s lit
  | _ => false
  end.

(** [error instanceof SyntaxError] *)
Definition instanceof_SyntaxError (e : value) : bool :=
  match e with
  | VErr SyntaxError _ => true
  | _ => false
  end.

(** [s.indexOf(c)] for a one-character needle: the first index, or -1. *)
Fixpoint indexOf (s : string) (c : ascii) : Z :=
  match s with
  | EmptyString => -1
  | String a s' =>
      if Ascii.eqb a c then 0
      else let i := indexOf s' c in if (i <? 0)%Z then -1 else (i + 1)%Z
  end.

(** ** The store and the monad *)

(** An object is its own enumerable properties. *)
Abbreviation obj := (gmap string value).

Record state := State {
  heap : list obj;               (* the objects allocated so far *)
  console : list (list value)    (* the arguments of each console.warn *)
}.

(** How a computation ends: with a value, with a thrown value (a rejected
    promise), or on an operation on an ill-typed operand that this model
    does not cover. *)
Inductive outcome (A : Type) :=
  | Val (a : A)
  | Exn (e : value)
  | Unmodelled.
Arguments Val {A} a.
Arguments Exn {A} e.
Arguments Unmodelled {A}.

Definition M (A : Type) : Type := state → outcome A * state.

#[global] Instance M_ret : MRet M := λ A a st, (Val a, st).
#[global] Instance M_bind : MBind M := λ A B f m st,
  match m st with
  | (Val a, st') => f a st'
  | (Exn e, st') => (Exn e, st')
  | (Unmodelled, st') => (Unmodelled, st')
  end.

Definition throw {A} (e : value) : M A := λ st, (Exn e, st).
Definition unmodelled {A} : M A := λ st, (Unmodelled, st).

(** [try { m } catch (error) { h error }] *)
Definition try_catch {A} (m : M A) (h : value → M A) : M A := λ st,
  match m st with
  | (Exn e, st') => h e st'
  | r => r
  end.

(** A computation that only reads the store. *)
Definition reading {A} (f : list obj → outcome A) : M A := λ st, (f (heap st), st).

(** An object literal: a new object at the end of the store. *)
Definition alloc (o : obj) : M nat := λ st,
  (Val (length (heap st)), State (heap st ++ [o]) (console st)).

Definition read_obj (l : nat) : M obj := λ st,
  match heap st !! l with
  | Some o => (Val o, st)
  | None => (Unmodelled, st)
  end.

Definition write_obj (l : nat) (o : obj) : M unit := λ st,
  match heap st !! l with
  | Some _ => (Val tt, State (<[l := o]> (heap st)) (console st))
  | None => (Unmodelled, st)
  end.

(** [o.k] on an object reference. *)
Definition get (l : nat) (k : string) : M value :=
  o ← read_obj l; mret (default VUndef (o !! k)).

(** [o.k = v] on an object reference. *)
Definition set (l : nat) (k : string) (v : value) : M unit :=
  o ← read_obj l; write_obj l (<[k := v]> o).

(** [v[k]] for a key that no prototype defines: a property of the object, a
    TypeError on undefined and null, undefined on the other primitives. *)
Definition get_prop (v : value) (k : string) : M value :=
  match v with
  | VRef l => get l k
  | VUndef | VNull => throw (VErr TypeError "Cannot read properties of undefined or null")
  | _ => mret VUndef
  end.

(** [v[k] = x]: writes the property of an object; not covered on anything
    else. *)
Definition set_prop (v : value) (k : string) (x : value) : M unit :=
  match v with
  | VRef l => set l k x
  | VUndef | VNull => throw (VErr TypeError "Cannot set properties of undefined or null")
  | _ => unmodelled
  end.

(** The own enumerable properties that [assign] copies from a source: those
    of an object, none of a primitive (a non-empty string, whose characters
    count as properties, is not covered). *)
Definition own_enumerable (v : value) : M obj :=
  match v with
  | VRef l => read_obj l
  | VStr s => if String.eqb s "" then mret ∅ else unmodelled
  | _ => mret ∅
  end.

(** [assign(target, source)] of @ember/polyfills: every property of [source]
    is written to [target], which is mutated and returned. *)
Definition assign (target : value) (source : value) : M value :=
  match target with
  | VRef t =>
      src ← own_enumerable source;
      tgt ← read_obj t;
      write_obj t (src ∪ tgt);;
      mret target
  | _ => unmodelled
  end.

(** [Object.keys(v).length] for a truthy [v]. *)
Definition Object_keys_length (v : value) : M nat :=
  match v with
  | VRef l => o ← read_obj l; mret (size o)
  | VStr s => mret (String.length s)
  | VUndef | VNull => throw (VErr TypeError "Cannot convert undefined or null to object")
  | _ => mret 0
  end.

(** [console.warn(...args)] *)
Definition console_warn (args : list value) : M unit := λ st,
  (Val tt, State (heap st) (console st ++ [args])).

(** ** The collaborators *)

(** A [Response] of the fetch API, as far as the code reads it. *)
Record Response := {
  status : Z;
  ok : bool;
  statusText : string;
  headers : option (list (string * string));  (* the Headers, in iteration order *)
  text : outcome string                       (* how the promise of text() settles *)
}.

(** The [requestData] that [ajax] builds: [{ url, method: type }]. *)
Record RequestData := {
  rd_url : string;
  rd_method : string
}.

(** The hooks of the host [DS.RESTAdapter] that the mixin calls. *)
Record RESTAdapter := {
  get_headers : value;       (* adapter.get('headers') *)
  handleResponse : Z → gmap string string → value → RequestData → M value;
  parseErrorResponse : value → M value
}.

(** ** The module *)

(** [headersObject[key] = value] on the plain object of [headersToObject]:
    a property of that name is written, except for the name [__proto__],
    which is the prototype accessor of a plain object and ignores a string,
    so that no property is made. *)
Definition assign_header (headersObject : gmap string string) (kv : string * string)
    : gmap string string :=
  if String.eqb kv.1 "__proto__" then headersObject
  else <[kv.1 := kv.2]> headersObject.

(** [headersToObject]: a plain object from the response's Headers. *)
Definition headersToObject (hs : option (list (string * string))) : gmap string string :=
  match hs with
  | Some entries => fold_left assign_header entries ∅
  | None => ∅
  end.

Section AdapterFetch.

(** The globals the module imports: [JSON], the repository's
    [serializeQueryParams] of utils/serialize-query-params, and [fetch]. *)
Variable JSON_parse : string → M value.
Variable JSON_stringify : list obj → value → outcome value.
Variable serializeQueryParams : list obj → value → outcome string.
Variable fetch : value → nat → M Response.

(** [mungOptionsForFetch], lines 38 to 51: the copy of the option bag, the
    overlay of the adapter's headers, and the method. *)
Definition mungOptionsForFetch_headers (_options : nat) (adapter : RESTAdapter) : M nat :=
  options ← alloc {["credentials" := VStr "same-origin"]};
  assign (VRef options) (VRef _options);;
  let adapterHeaders := get_headers adapter in
  (if truthy adapterHeaders then
     hs ← get options "headers";
     target ← (if truthy hs then mret hs else l ← alloc ∅; mret (VRef l));
     merged ← assign target adapterHeaders;
     set options "headers" merged
   else mret tt);;
  type ← get options "type";
  set options "method" (or_else type (VStr "GET"));;
  mret options.

(** Lines 53 to 69: the data payload goes to the query string or to the
    body. *)
Definition mungOptionsForFetch_data (options : nat) : M unit :=
  data ← get options "data";
  if truthy data then
    method ← get options "method";
    if is_string method "GET" || is_string method "HEAD" then
      n ← Object_keys_length data;
      if decide (n = 0) then mret tt
      else
        url ← get options "url";
        match url with
        | VStr u =>
            let queryParamDelimiter :=
              if (indexOf u "?" >? -1)%Z then "&" else "?" in
            q ← reading (λ h, serializeQueryParams h data);
            set options "url" (VStr (u +:+ queryParamDelimiter +:+ q))
        | VRef _ => unmodelled
        | _ => throw (VErr TypeError "options.url.indexOf is not a function")
        end
    else
      body ← reading (λ h, JSON_stringify h data);
      set options "body" body
  else mret tt.

(** The test of lines 73 to 78. *)
Definition wants_default_contentType (options : nat) : M bool :=
  method ← get options "method";
  body ← get options "body";
  if negb (is_string method "GET") && truthy body then
    hs ← get options "headers";
    if decide (hs = VUndef) then mret true
    else
      upper ← get_prop hs "Content-Type";
      if truthy upper then mret false
      else lower ← get_prop hs "content-type"; mret (negb (truthy lower))
  else mret false.

(** Lines 73 to 81: the default content type. *)
Definition mungOptionsForFetch_contentType (options : nat) : M unit :=
  wanted ← wants_default_contentType options;
  if wanted : bool then
    hs ← get options "headers";
    hs' ← (if truthy hs then mret hs else l ← alloc ∅; mret (VRef l));
    set options "headers" hs';;
    set_prop hs' "Content-Type" (VStr "application/json; charset=utf-8")
  else mret tt.

Definition mungOptionsForFetch (_options : nat) (adapter : RESTAdapter) : M nat :=
  options ← mungOptionsForFetch_headers _options adapter;
  mungOptionsForFetch_data options;;
  mungOptionsForFetch_contentType options;;
  mret options.

(** [determineBodyPromise] *)
Definition determineBodyPromise (response : Response) (requestData : RequestData) : M value :=
  payload ← (λ st, (text response, st));
  try_catch (JSON_parse payload)
    (λ error,
       if negb (instanceof_SyntaxError error) then throw error
       else
         if ok response &&
            ((status response =? 204)%Z || (status response =? 205)%Z
             || String.eqb (rd_method requestData) "HEAD")
         then mret VUndef
         else
           console_warn [VStr "This response was unable to be parsed as json."; VStr payload];;
           mret (VStr payload)).

(** ** The mixin *)

(** [ajaxOptions(url, type, options = {})] *)
Definition ajaxOptions (adapter : RESTAdapter) (url type : string) (options : option nat) : M nat :=
  options ← (match options with Some l => mret l | None => alloc ∅ end);
  set options "url" (VStr url);;
  set options "type" (VStr type);;
  spread ← read_obj options;
  copy ← alloc (<["type" := VStr type]> (<["url" := VStr url]> spread));
  mungOptionsForFetch copy adapter.

(** [_fetchRequest(url, options)] *)
Definition _fetchRequest (url : value) (options : nat) : M Response :=
  fetch url options.

(** [_ajaxRequest(options)] *)
Definition _ajaxRequest (options : nat) : M Response :=
  url ← get options "url";
  _fetchRequest url options.

(** [ajaxSuccess(adapter, response, payload, requestData)]; the rejected
    promise it returns is a throw. *)
Definition ajaxSuccess (adapter : RESTAdapter) (response : Response)
    (payload : value) (requestData : RequestData) : M value :=
  returnResponse ← handleResponse adapter (status response)
                     (headersToObject (headers response)) payload requestData;
  if truthy returnResponse then
    flag ← get_prop returnResponse "isAdapterError";
    if truthy flag then throw returnResponse else mret returnResponse
  else mret returnResponse.

(** [parseFetchResponseForError(response, payload)] *)
Definition parseFetchResponseForError (response : Response) (payload : value) : value :=
  or_else payload (VStr (statusText response)).

(** [ajaxError(adapter, response, payload, requestData, error)] *)
Definition ajaxError (adapter : RESTAdapter) (response : Response)
    (payload : value) (requestData : RequestData) (error : value) : M value :=
  if truthy error then mret error
  else
    let parsedResponse := parseFetchResponseForError response payload in
    parsed ← parseErrorResponse adapter parsedResponse;
    handleResponse adapter (status response)
      (headersToObject (headers response)) (or_else parsed payload) requestData.

(** [ajax(url, type, options)] *)
Definition ajax (adapter : RESTAdapter) (url type : string) (options : option nat) : M value :=
  let requestData := {| rd_url := url; rd_method := type |} in
  hash ← ajaxOptions adapter url type options;
  response ← try_catch (_ajaxRequest hash) (λ error, throw error);
  payload ← determineBodyPromise response requestData;
  if ok response then
    ajaxSuccess adapter response (or_else payload (VStr "")) requestData
  else
    failure ← ajaxError adapter response payload requestData VUndef;
    throw failure.

End AdapterFetch.

(** ** Observations *)

(** The field [k] of the object at [l], if the object has one. *)
Definition field (st : state) (l : nat) (k : string) : option value :=
  heap st !! l ≫= λ o : obj, o !! k.

(** A value carries the [isAdapterError] flag of the adapter errors. *)
Definition isAdapterError (st : state) (v : value) : bool :=
  match v with
  | VRef l => truthy (default VUndef (field st l "isAdapterError"))
  | _ => false
  end.

(** The condition of lines 104 and 105 of [determineBodyPromise]. *)
Definition no_content (response : Response) (requestData : RequestData) : bool :=
  ok response &&
  ((status response =? 204)%Z || (status response =? 205)%Z
   || String.eqb (rd_method requestData) "HEAD").

(** The method that line 51 resolves: [options.type || 'GET']. *)
Definition resolved_method (o : obj) : value :=
  or_else (default VUndef (o !! "type")) (VStr "GET").

(** The test of line 55: the methods that cannot have a body. *)
Definition bodyless (method : value) : bool :=
  is_string method "GET" || is_string method "HEAD".

(** The delimiter of line 59. *)
Definition queryParamDelimiter (url : string) : string :=
  if (indexOf url "?" >? -1)%Z then "&" else "?".


(** The default content type of line 80. *)
Definition json_contentType : value := VStr "application/json; charset=utf-8".

(** The test of lines 76 and 77 on a headers object: a truthy value under
    one of the two keys. *)
Definition has_contentType (hs : obj) : bool :=
  truthy (default VUndef (hs !! "Content-Type"))
  || truthy (default VUndef (hs !! "content-type")).

(** What the types of the parameters say: undefined or an object of the
    store.  [JQueryAjaxSettings] types [headers] so, [DS.RESTAdapter] its
    [headers] property. *)
Definition optional_object (h : list obj) (v : value) : Prop :=
  v = VUndef ∨ ∃ l x, v = VRef l ∧ h !! l = Some x.

Definition well_typed (h : list obj) (o : obj) (adapter : RESTAdapter) : Prop :=
  optional_object h (default VUndef (o !! "headers"))
  ∧ optional_object h (get_headers adapter).

(** Every object that was in the store is left as it was. *)
Definition unchanged (st st' : state) : Prop :=
  ∀ l o, heap st !! l = Some o → heap st' !! l = Some o.

(** A header name compared without regard to case, as HTTP does. *)
Definition lower_ascii (a : ascii) : ascii :=
  let n := nat_of_ascii a in
  if (65 <=? n) && (n <=? 90) then ascii_of_nat (n + 32) else a.

Fixpoint lower (s : string) : string :=
  match s with
  | EmptyString => EmptyString
  | String a s' => String (lower_ascii a) (lower s')
  end.

Definition supplies_contentType (hs : obj) : bool :=
  existsb (λ kv, String.eqb (lower kv.1) "content-type") (map_to_list hs).

(** ** Sample collaborators, for running the model *)

(** A JSON parser for a handful of documents; anything else is a syntax
    error, as in [JSON.parse]. *)
Definition sample_JSON_parse (s : string) : M value :=
  if String.eqb s "null" then mret VNull
  else if String.eqb s "true" then mret (VBool true)
  else if String.eqb s "false" then mret (VBool false)
  else if String.eqb s "0" then mret (VNum 0)
  else if String.eqb s "{}" then l ← alloc ∅; mret (VRef l)
  else throw (VErr SyntaxError "Unexpected token in JSON").

(** A parser that fails with an error of another class. *)
Definition failing_JSON_parse (s : string) : M value :=
  throw (VErr RangeError "Maximum call stack size exceeded").

(** A transport that answers every request with [r]. *)
Definition fetch_returning (r : Response) (url : value) (options : nat) : M Response :=
  mret r.

(** An adapter without default headers whose [handleResponse] lets a
    truthy payload of a 2xx response through and classifies everything
    else as an adapter error. *)
Definition sample_handleResponse (status : Z) (hs : gmap string string)
    (payload : value) (requestData : RequestData) : M value :=
  if (200 <=? status)%Z && (status <? 300)%Z && truthy payload then mret payload
  else
    l ← alloc {[ "isAdapterError" := VBool true; "payload" := payload ]};
    mret (VRef l).

Definition sample_adapter (hs : value) : RESTAdapter := {|
  get_headers := hs;
  handleResponse := sample_handleResponse;
  parseErrorResponse := λ payload, mret payload
|}.

Definition sample_response (code : Z) (body : string) : Response := {|
  status := code;
  ok := (200 <=? code)%Z && (code <? 300)%Z;
  statusText := "";
  headers := Some [("content-type", "application/json")];
  text := Val body
|}.

(** A [serializeQueryParams] for objects whose values are strings. *)
Definition show_value (v : value) : string :=
  match v with
  | VStr s => s
  | VBool true => "true"
  | VBool false => "false"
  | _ => ""
  end.

Definition sample_serializeQueryParams (h : list obj) (v : value) : outcome string :=
  match v with
  | VRef l =>
      match h !! l with
      | Some o =>
          Val (String.concat "&"
                 (map (λ kv, kv.1 +:+ "=" +:+ show_value kv.2) (map_to_list o)))
      | None => Unmodelled
      end
  | VStr s => Val s
  | _ => Val ""
  end.

(** A [JSON.stringify] for the same objects. *)
Definition quote : string := String (ascii_of_nat 34) EmptyString.

Definition sample_JSON_stringify (h : list obj) (v : value) : outcome value :=
  match v with
  | VRef l =>
      match h !! l with
      | Some o =>
          Val (VStr ("{" +:+
                 String.concat ","
                   (map (λ kv, quote +:+ kv.1 +:+ quote +:+ ":" +:+
                               quote +:+ show_value kv.2 +:+ quote)
                      (map_to_list o))
                 +:+ "}"))
      | None => Unmodelled
      end
  | VStr s => Val (VStr (quote +:+ s +:+ quote))
  | _ => Val (VStr "null")
  end.

(** The rule for the default content type in the words of the
    specification: the header is set exactly when no content-type header, in
    any letter case, was supplied. *)
Definition contentType_rule_as_specified (before after : obj) : Prop :=
  (before !! "Content-Type" ≠ Some json_contentType
   ∧ after !! "Content-Type" = Some json_contentType)
  ↔ supplies_contentType before = false.

(** ** The monad runs *)

Lemma run_bind {A B} (m : M A) (f : A → M B) st :
  (m ≫= f) st =
  match m st with
  | (Val a, st') => f a st'
  | (Exn e, st') => (Exn e, st')
  | (Unmodelled, st') => (Unmodelled, st')
  end.
Proof. reflexivity. Qed.

Lemma run_bind_val {A B} (m : M A) (f : A → M B) st a st' :
  m st = (Val a, st') → (m ≫= f) st = f a st'.
Proof. intros H. rewrite run_bind, H. reflexivity. Qed.

Lemma run_ret {A} (a : A) st : mret (M := M) a st = (Val a, st).
Proof. reflexivity. Qed.

(** The values that [payload || ''] replaces. *)
Lemma falsy_values v :
  truthy v = false ↔
  v = VUndef ∨ v = VNull ∨ v = VBool false ∨ v = VNum 0 ∨ v = VStr "".
Proof.
  split.
  - destruct v as [| |[]|n|s| |]; simpl; try discriminate; auto.
    + destruct (Z.eqb_spec n 0); [subst; auto 6 | discriminate].
    + destruct (String.eqb_spec s ""); [subst; auto 6 | discriminate].
  - intros [->|[->|[->|[->| ->]]]]; reflexivity.
Qed.

(** ** The body resolver *)

(** C1. When the body is not JSON (a SyntaxError of the parser), the
    response is ok and has status 204 or 205 or the request was a HEAD,
    [determineBodyPromise] resolves to undefined, the no-content marker,
    and warns about nothing. *)
Theorem determineBodyPromise_no_content JSON_parse response requestData st s e st' :
  text response = Val s →
  JSON_parse s st = (Exn e, st') →
  instanceof_SyntaxError e = true →
  ok response = true →
  status response = 204%Z ∨ status response = 205%Z ∨ rd_method requestData = "HEAD" →
  determineBodyPromise JSON_parse response requestData st = (Val VUndef, st').
Proof.
  intros Htext Hparse Hsyn Hok Hcase.
  unfold determineBodyPromise.
  rewrite run_bind, Htext. unfold try_catch. rewrite Hparse, Hsyn, Hok. simpl.
  destruct Hcase as [-> | [-> | ->]]; simpl; rewrite ?orb_true_r; reflexivity.
Qed.

Lemma determineBodyPromise_no_content_witness :
  determineBodyPromise sample_JSON_parse (sample_response 204 "")
    {| rd_url := "/widgets/1"; rd_method := "DELETE" |} (State [] [])
  = (Val VUndef, State [] []).
Proof.
  apply (determineBodyPromise_no_content sample_JSON_parse (sample_response 204 "")
           {| rd_url := "/widgets/1"; rd_method := "DELETE" |} (State [] []) ""
           (VErr SyntaxError "Unexpected token in JSON") (State [] []));
    [reflexivity | reflexivity | reflexivity | reflexivity | left; reflexivity].
Defined.

(** In the fetch API [ok] says that the status is in the range 200 to 299:
    for such a response the status 204 or 205 is enough. *)
Lemma determineBodyPromise_no_content_status JSON_parse response requestData st s e st' :
  ok response = (200 <=? status response)%Z && (status response <? 300)%Z →
  text response = Val s →
  JSON_parse s st = (Exn e, st') →
  instanceof_SyntaxError e = true →
  status response = 204%Z ∨ status response = 205%Z →
  determineBodyPromise JSON_parse response requestData st = (Val VUndef, st').
Proof.
  intros Hok Htext Hparse Hsyn Hstatus.
  unfold determineBodyPromise.
  rewrite run_bind, Htext. unfold try_catch. rewrite Hparse, Hsyn, Hok. simpl.
  destruct Hstatus as [-> | ->]; reflexivity.
Qed.

(** Without [response.ok] the tolerance does not apply, whatever the status
    and the method: the raw text is the payload. *)
Lemma determineBodyPromise_not_ok JSON_parse response requestData st s e st' :
  text response = Val s →
  JSON_parse s st = (Exn e, st') →
  instanceof_SyntaxError e = true →
  ok response = false →
  fst (determineBodyPromise JSON_parse response requestData st) = Val (VStr s).
Proof.
  intros Htext Hparse Hsyn Hok. unfold determineBodyPromise.
  rewrite run_bind, Htext. unfold try_catch. rewrite Hparse, Hsyn, Hok. reflexivity.
Qed.

(** C9. When the body is not JSON and the response does not qualify for the
    no-content tolerance, [determineBodyPromise] resolves to the raw text and
    its only effect is one console.warn; an error of the parser of any other
    class rejects the promise with that error. *)
Theorem determineBodyPromise_raw_text JSON_parse response requestData st s e st' :
  text response = Val s →
  JSON_parse s st = (Exn e, st') →
  (instanceof_SyntaxError e = true →
   no_content response requestData = false →
   determineBodyPromise JSON_parse response requestData st =
     (Val (VStr s),
      State (heap st')
        (console st' ++ [[VStr "This response was unable to be parsed as json."; VStr s]])))
  ∧ (instanceof_SyntaxError e = false →
     determineBodyPromise JSON_parse response requestData st = (Exn e, st')).
Proof.
  intros Htext Hparse. unfold determineBodyPromise, no_content.
  rewrite run_bind, Htext. unfold try_catch. rewrite Hparse.
  split.
  - intros -> ->. reflexivity.
  - intros ->. reflexivity.
Qed.

Lemma determineBodyPromise_raw_text_witness :
  determineBodyPromise sample_JSON_parse (sample_response 200 "<html>")
    {| rd_url := "/widgets"; rd_method := "GET" |} (State [] [])
  = (Val (VStr "<html>"),
     State [] [[VStr "This response was unable to be parsed as json."; VStr "<html>"]])
  ∧ determineBodyPromise failing_JSON_parse (sample_response 200 "<html>")
      {| rd_url := "/widgets"; rd_method := "GET" |} (State [] [])
    = (Exn (VErr RangeError "Maximum call stack size exceeded"), State [] []).
Proof.
  split.
  - apply (determineBodyPromise_raw_text sample_JSON_parse (sample_response 200 "<html>")
             {| rd_url := "/widgets"; rd_method := "GET" |} (State [] []) "<html>"
             (VErr SyntaxError "Unexpected token in JSON") (State [] []));
      reflexivity.
  - apply (determineBodyPromise_raw_text failing_JSON_parse (sample_response 200 "<html>")
             {| rd_url := "/widgets"; rd_method := "GET" |} (State [] []) "<html>"
             (VErr RangeError "Maximum call stack size exceeded") (State [] []));
      reflexivity.
Defined.

(** ** Success and failure of the exchange *)

Lemma isAdapterError_get_prop st v :
  isAdapterError st v = true →
  truthy v = true ∧
  ∃ flag, get_prop v "isAdapterError" st = (Val flag, st) ∧ truthy flag = true.
Proof.
  destruct v as [| | | | |l|]; simpl; try discriminate.
  unfold field, get, read_obj. rewrite run_bind.
  destruct (heap st !! l) as [o|]; simpl; [|discriminate].
  intros H. split; [reflexivity|]. eexists. split; [reflexivity | exact H].
Qed.

Lemma ajaxSuccess_flagged adapter response payload requestData st v st' :
  handleResponse adapter (status response) (headersToObject (headers response))
    payload requestData st = (Val v, st') →
  isAdapterError st' v = true →
  ajaxSuccess adapter response payload requestData st = (Exn v, st').
Proof.
  intros Hhook Hflag. unfold ajaxSuccess.
  rewrite (run_bind_val _ _ _ _ _ Hhook).
  destruct (isAdapterError_get_prop _ _ Hflag) as (-> & flag & Hget & Hflag').
  rewrite (run_bind_val _ _ _ _ _ Hget), Hflag'. reflexivity.
Qed.

(** What [ajax] does once the response and its payload have arrived. *)
Lemma ajax_classifies JSON_parse JSON_stringify serializeQueryParams fetch
    adapter url type options st hash st1 response st2 payload st3 :
  ajaxOptions JSON_stringify serializeQueryParams adapter url type options st
    = (Val hash, st1) →
  _ajaxRequest fetch hash st1 = (Val response, st2) →
  determineBodyPromise JSON_parse response {| rd_url := url; rd_method := type |} st2
    = (Val payload, st3) →
  ajax JSON_parse JSON_stringify serializeQueryParams fetch adapter url type options st =
  if ok response then
    ajaxSuccess adapter response (or_else payload (VStr ""))
      {| rd_url := url; rd_method := type |} st3
  else
    (failure ← ajaxError adapter response payload
                 {| rd_url := url; rd_method := type |} VUndef;
     throw failure) st3.
Proof.
  intros Hopts Hreq Hbody. unfold ajax.
  rewrite (run_bind_val _ _ _ _ _ Hopts).
  rewrite run_bind. unfold try_catch at 1. rewrite Hreq.
  rewrite (run_bind_val _ _ _ _ _ Hbody).
  destruct (ok response); reflexivity.
Qed.

(** C5. If [handleResponse] returns a value flagged with [isAdapterError],
    [ajaxSuccess] rejects with that value; and so does [ajax] when the
    response is ok and the adapter's [handleResponse] flags its result. *)
Theorem ajaxSuccess_rejects_adapter_error JSON_parse JSON_stringify
    serializeQueryParams fetch adapter url type options response payload :
  (∀ requestData st v st',
     handleResponse adapter (status response) (headersToObject (headers response))
       payload requestData st = (Val v, st') →
     isAdapterError st' v = true →
     ajaxSuccess adapter response payload requestData st = (Exn v, st'))
  ∧ (∀ st hash st1 st2 st3 v st4,
       ajaxOptions JSON_stringify serializeQueryParams adapter url type options st
         = (Val hash, st1) →
       _ajaxRequest fetch hash st1 = (Val response, st2) →
       determineBodyPromise JSON_parse response {| rd_url := url; rd_method := type |} st2
         = (Val payload, st3) →
       ok response = true →
       handleResponse adapter (status response) (headersToObject (headers response))
         (or_else payload (VStr "")) {| rd_url := url; rd_method := type |} st3
         = (Val v, st4) →
       isAdapterError st4 v = true →
       ajax JSON_parse JSON_stringify serializeQueryParams fetch adapter url type options st
         = (Exn v, st4)).
Proof.
  split.
  - intros requestData st v st'. apply ajaxSuccess_flagged.
  - intros st hash st1 st2 st3 v st4 Hopts Hreq Hbody Hok Hhook Hflag.
    rewrite (ajax_classifies _ _ _ _ _ _ _ _ _ _ _ _ _ _ _ Hopts Hreq Hbody), Hok.
    apply ajaxSuccess_flagged; assumption.
Qed.

(** The scenario of a DELETE answered with 204 and an empty body, on the
    sample adapter. *)
Lemma ajaxSuccess_rejects_adapter_error_witness :
  fst (ajax sample_JSON_parse sample_JSON_stringify sample_serializeQueryParams
         (fetch_returning (sample_response 204 "")) (sample_adapter VUndef)
         "/widgets/1" "DELETE" None (State [] []))
  = Exn (VRef 3).
Proof.
  set (response := sample_response 204 "").
  set (adapter := sample_adapter VUndef).
  set (st1 := snd (ajaxOptions sample_JSON_stringify sample_serializeQueryParams adapter
                     "/widgets/1" "DELETE" None (State [] []))).
  set (st4 := snd (handleResponse adapter 204 (headersToObject (headers response))
                     (VStr "") {| rd_url := "/widgets/1"; rd_method := "DELETE" |} st1)).
  rewrite (proj2 (ajaxSuccess_rejects_adapter_error sample_JSON_parse
                    sample_JSON_stringify sample_serializeQueryParams
                    (fetch_returning response) adapter "/widgets/1" "DELETE" None
                    response VUndef)
             (State [] []) 2 st1 st1 st1 (VRef 3) st4);
    vm_compute; reflexivity.
Defined.

(** C10. Once the response and its payload have arrived: when the response
    is ok and the payload is falsy, [ajax] continues as [ajaxSuccess] on the
    empty string, so that the adapter's [handleResponse] receives the empty
    string and its outcome decides the one of [ajax]; when the response is
    not ok, [ajax] throws what [ajaxError] makes of the payload as it is. *)
Theorem ajax_falsy_payload JSON_parse JSON_stringify serializeQueryParams fetch
    adapter url type options st hash st1 response st2 payload st3 :
  ajaxOptions JSON_stringify serializeQueryParams adapter url type options st
    = (Val hash, st1) →
  _ajaxRequest fetch hash st1 = (Val response, st2) →
  determineBodyPromise JSON_parse response {| rd_url := url; rd_method := type |} st2
    = (Val payload, st3) →
  let requestData := {| rd_url := url; rd_method := type |} in
  let ajax := ajax JSON_parse JSON_stringify serializeQueryParams fetch adapter in
  (ok response = true → truthy payload = false →
   ajax url type options st = ajaxSuccess adapter response (VStr "") requestData st3
   ∧ ∀ r st4,
       handleResponse adapter (status response) (headersToObject (headers response))
         (VStr "") requestData st3 = (r, st4) →
       ajax url type options st =
       match r with
       | Val v =>
           if truthy v then
             (flag ← get_prop v "isAdapterError";
              if truthy flag then throw v else mret v) st4
           else (Val v, st4)
       | Exn e => (Exn e, st4)
       | Unmodelled => (Unmodelled, st4)
       end)
  ∧ (ok response = false →
     ajax url type options st =
     (failure ← ajaxError adapter response payload requestData VUndef; throw failure) st3).
Proof.
  intros Hopts Hreq Hbody requestData ajax'. subst requestData ajax'.
  rewrite (ajax_classifies _ _ _ _ _ _ _ _ _ _ _ _ _ _ _ Hopts Hreq Hbody).
  unfold or_else.
  split.
  - intros -> ->. split; [reflexivity|].
    intros r st4 Hhook. unfold ajaxSuccess. rewrite run_bind, Hhook.
    destruct r as [v| |]; [destruct (truthy v)|..]; reflexivity.
  - intros ->. reflexivity.
Qed.

(** The same DELETE: the no-content marker reaches [handleResponse] as the
    empty string. *)
Lemma ajax_falsy_payload_witness :
  let requestData := {| rd_url := "/widgets/1"; rd_method := "DELETE" |} in
  let adapter := sample_adapter VUndef in
  let response := sample_response 204 "" in
  let st3 := snd (ajaxOptions sample_JSON_stringify sample_serializeQueryParams adapter
                    "/widgets/1" "DELETE" None (State [] [])) in
  ajax sample_JSON_parse sample_JSON_stringify sample_serializeQueryParams
    (fetch_returning response) adapter "/widgets/1" "DELETE" None (State [] [])
  = ajaxSuccess adapter response (VStr "") requestData st3.
Proof.
  intros requestData adapter response st3.
  refine (proj1 (proj1 (ajax_falsy_payload sample_JSON_parse sample_JSON_stringify
                          sample_serializeQueryParams (fetch_returning response) adapter
                          "/widgets/1" "DELETE" None (State [] []) 2 st3 response st3
                          VUndef st3 _ _ _) _ _));
    vm_compute; reflexivity.
Defined.

(** ** The store *)

Lemma lookup_snoc_new (h : list obj) x n : n = length h → (h ++ [x]) !! n = Some x.
Proof. intros ->. by apply list_lookup_middle. Qed.

Lemma lookup_snoc_old (h : list obj) x l : l < length h → (h ++ [x]) !! l = h !! l.
Proof. apply lookup_app_l. Qed.

Lemma insert_snoc_new (h : list obj) x y n :
  n = length h → <[n := y]> (h ++ [x]) = h ++ [y].
Proof. intros ->. rewrite insert_app_r_alt, Nat.sub_diag by lia. reflexivity. Qed.

Lemma insert_snoc_old (h : list obj) x y l :
  l < length h → <[l := y]> (h ++ [x]) = <[l := y]> h ++ [x].
Proof. apply insert_app_l. Qed.

Lemma get_run h c l k (o : obj) :
  h !! l = Some o → get l k (State h c) = (Val (default VUndef (o !! k)), State h c).
Proof. intros H. unfold get, read_obj. rewrite run_bind. simpl. rewrite H. reflexivity. Qed.

Lemma set_run h c l k v (o : obj) :
  h !! l = Some o →
  set l k v (State h c) = (Val tt, State (<[l := <[k := v]> o]> h) c).
Proof.
  intros H. unfold set, read_obj, write_obj. rewrite run_bind. simpl. rewrite H. simpl.
  rewrite H. reflexivity.
Qed.

Lemma alloc_run h c o : alloc o (State h c) = (Val (length h), State (h ++ [o]) c).
Proof. reflexivity. Qed.

Lemma assign_run h c t s (T S : obj) :
  h !! t = Some T → h !! s = Some S →
  assign (VRef t) (VRef s) (State h c) = (Val (VRef t), State (<[t := S ∪ T]> h) c).
Proof.
  intros Ht Hs. unfold assign, own_enumerable, read_obj, write_obj.
  rewrite run_bind. simpl. rewrite Hs.
  rewrite run_bind. simpl. rewrite Ht.
  rewrite run_bind. simpl. rewrite Ht. reflexivity.
Qed.

(** The copy of line 38 has the fields of the bag, and the default
    [credentials] unless the bag has its own. *)
Lemma lookup_copy (o : obj) k :
  k ≠ "credentials" → (o ∪ {["credentials" := VStr "same-origin"]}) !! k = o !! k.
Proof. intros Hk. apply lookup_union_l. by apply lookup_singleton_ne. Qed.

Ltac mrun := rewrite ?run_bind; cbv beta iota.

Ltac len := repeat (rewrite length_app || rewrite length_insert); simpl; lia.

Ltac heap_simpl :=
  repeat first
    [ rewrite lookup_snoc_new by len
    | rewrite insert_snoc_new by len
    | rewrite lookup_snoc_old by len
    | rewrite insert_snoc_old by len
    | rewrite list_insert_insert_eq
    | rewrite list_lookup_insert_eq by len
    | rewrite list_lookup_insert_ne by (simpl; lia || congruence) ].

(** ** Lines 38 to 51: the copy, the headers and the method *)

Section HeadersPhase.

Context (h : list obj) (c : list (list value)) (_options : nat) (o : obj).
Context (adapter : RESTAdapter).
Hypothesis bag : h !! _options = Some o.

Let copy : obj := o ∪ {["credentials" := VStr "same-origin"]}.
Let method : value := resolved_method o.

(** Without adapter headers the headers of the bag are kept. *)
Lemma headers_phase_none :
  truthy (get_headers adapter) = false →
  mungOptionsForFetch_headers _options adapter (State h c)
  = (Val (length h), State (h ++ [<["method" := method]> copy]) c).
Proof.
  intros Hfalsy. pose proof (lookup_lt_Some _ _ _ bag) as Hlt.
  unfold mungOptionsForFetch_headers.
  rewrite run_bind, alloc_run.
  rewrite run_bind, (assign_run _ _ _ _ {["credentials" := VStr "same-origin"]} o);
    [| by heap_simpl | by heap_simpl].
  heap_simpl. rewrite Hfalsy. rewrite run_bind, run_ret.
  rewrite run_bind, (get_run _ _ _ _ copy) by by heap_simpl.
  rewrite run_bind, (set_run _ _ _ _ _ copy) by by heap_simpl.
  heap_simpl. subst copy method. unfold resolved_method. rewrite lookup_copy by done.
  reflexivity.
Qed.

(** The adapter's headers go into the headers object of the caller. *)
Lemma headers_phase_supplied a (A : obj) cl (C : obj) :
  get_headers adapter = VRef a → h !! a = Some A →
  o !! "headers" = Some (VRef cl) → h !! cl = Some C →
  mungOptionsForFetch_headers _options adapter (State h c)
  = (Val (length h),
     State (<[cl := A ∪ C]> h
            ++ [<["method" := method]> (<["headers" := VRef cl]> copy)]) c).
Proof.
  intros Hadapter Ha Hhs Hcl. pose proof (lookup_lt_Some _ _ _ bag) as Hlt.
  pose proof (lookup_lt_Some _ _ _ Ha) as Hlta.
  pose proof (lookup_lt_Some _ _ _ Hcl) as Hltc.
  assert (copy !! "headers" = Some (VRef cl)) as Hcopy
    by (subst copy; by rewrite lookup_copy).
  assert (copy !! "type" = o !! "type") as Htype
    by (subst copy; by rewrite lookup_copy).
  unfold mungOptionsForFetch_headers.
  mrun. rewrite alloc_run. mrun.
  rewrite (assign_run _ _ _ _ {["credentials" := VStr "same-origin"]} o);
    [| by heap_simpl | by heap_simpl].
  mrun. heap_simpl. fold copy. rewrite Hadapter. cbn [truthy]. mrun.
  rewrite (get_run _ _ _ _ copy) by by heap_simpl.
  rewrite Hcopy. cbn [truthy default from_option id].
  mrun.
  rewrite run_ret. mrun.
  rewrite (assign_run _ _ _ _ C A); [| by heap_simpl | by heap_simpl].
  mrun. heap_simpl.
  rewrite (set_run _ _ _ _ _ copy) by by heap_simpl.
  mrun. heap_simpl.
  rewrite (get_run _ _ _ _ (<["headers" := VRef cl]> copy)) by by heap_simpl.
  mrun.
  rewrite (set_run _ _ _ _ _ (<["headers" := VRef cl]> copy)) by by heap_simpl.
  mrun. heap_simpl. rewrite run_ret.
  rewrite lookup_insert_ne, Htype by done. reflexivity.
Qed.

(** Without headers of the caller they go into a new object. *)
Lemma headers_phase_fresh a (A : obj) :
  get_headers adapter = VRef a → h !! a = Some A →
  truthy (default VUndef (o !! "headers")) = false →
  mungOptionsForFetch_headers _options adapter (State h c)
  = (Val (length h),
     State (h ++ [<["method" := method]> (<["headers" := VRef (S (length h))]> copy); A]) c).
Proof.
  intros Hadapter Ha Hhs. pose proof (lookup_lt_Some _ _ _ bag) as Hlt.
  pose proof (lookup_lt_Some _ _ _ Ha) as Hlta.
  assert (copy !! "headers" = o !! "headers") as Hcopy
    by (subst copy; by rewrite lookup_copy).
  assert (copy !! "type" = o !! "type") as Htype
    by (subst copy; by rewrite lookup_copy).
  assert (length (h ++ [copy]) = S (length h)) as Hlen
    by (rewrite length_app; simpl; lia).
  unfold mungOptionsForFetch_headers.
  mrun. rewrite alloc_run. mrun.
  rewrite (assign_run _ _ _ _ {["credentials" := VStr "same-origin"]} o);
    [| by heap_simpl | by heap_simpl].
  mrun. heap_simpl. fold copy. rewrite Hadapter. cbn [truthy]. mrun.
  rewrite (get_run _ _ _ _ copy) by by heap_simpl.
  rewrite Hcopy, Hhs. mrun. rewrite alloc_run, Hlen. mrun. rewrite run_ret. mrun.
  rewrite (assign_run _ _ _ _ ∅ A); [| by heap_simpl | by heap_simpl].
  mrun. rewrite (right_id_L ∅ (∪) A). heap_simpl.
  rewrite (set_run _ _ _ _ _ copy) by by heap_simpl.
  mrun. heap_simpl.
  rewrite (get_run _ _ _ _ (<["headers" := VRef (S (length h))]> copy)) by by heap_simpl.
  mrun.
  rewrite (set_run _ _ _ _ _ (<["headers" := VRef (S (length h))]> copy)) by by heap_simpl.
  mrun. heap_simpl. rewrite run_ret.
  rewrite lookup_insert_ne, Htype by done. rewrite <- app_assoc. reflexivity.
Qed.

End HeadersPhase.

(** The computations that only read. *)
Lemma Object_keys_length_state v st : (Object_keys_length v st).2 = st.
Proof.
  destruct v; try reflexivity. unfold Object_keys_length, read_obj.
  rewrite run_bind. destruct (heap st !! l); reflexivity.
Qed.

Lemma Object_keys_length_object h c l (o : obj) :
  h !! l = Some o → Object_keys_length (VRef l) (State h c) = (Val (size o), State h c).
Proof.
  intros H. unfold Object_keys_length, read_obj. rewrite run_bind. simpl. rewrite H.
  reflexivity.
Qed.

Lemma get_prop_object h c l k (o : obj) :
  h !! l = Some o →
  get_prop (VRef l) k (State h c) = (Val (default VUndef (o !! k)), State h c).
Proof. apply get_run. Qed.

(** ** Lines 53 to 69: the data payload *)

Section DataPhase.

Variable JSON_stringify : list obj → value → outcome value.
Variable serializeQueryParams : list obj → value → outcome string.

Context (h : list obj) (c : list (list value)) (options : nat) (o : obj).
Hypothesis descriptor : h !! options = Some o.

Let data : value := default VUndef (o !! "data").
Let method : value := default VUndef (o !! "method").
Let run := mungOptionsForFetch_data JSON_stringify serializeQueryParams options (State h c).

Lemma data_phase_absent : truthy data = false → run = (Val tt, State h c).
Proof.
  intros Hdata. subst run. unfold mungOptionsForFetch_data.
  mrun. rewrite (get_run _ _ _ _ o) by done. fold data. rewrite Hdata. reflexivity.
Qed.

Lemma data_phase_empty :
  truthy data = true → bodyless method = true →
  Object_keys_length data (State h c) = (Val 0, State h c) →
  run = (Val tt, State h c).
Proof.
  intros Hdata Hmethod Hkeys. subst run. unfold mungOptionsForFetch_data.
  mrun. rewrite (get_run _ _ _ _ o) by done. fold data. rewrite Hdata.
  mrun. rewrite (get_run _ _ _ _ o) by done. fold method.
  change (is_string method "GET" || is_string method "HEAD") with (bodyless method).
  rewrite Hmethod. mrun. rewrite Hkeys. reflexivity.
Qed.

Lemma data_phase_query n u q :
  truthy data = true → bodyless method = true →
  Object_keys_length data (State h c) = (Val n, State h c) → n ≠ 0 →
  o !! "url" = Some (VStr u) →
  serializeQueryParams h data = Val q →
  run = (Val tt,
         State (<[options := <["url" := VStr (u +:+ queryParamDelimiter u +:+ q)]> o]> h) c).
Proof.
  intros Hdata Hmethod Hkeys Hn Hurl Hq. subst run. unfold mungOptionsForFetch_data.
  mrun. rewrite (get_run _ _ _ _ o) by done. fold data. rewrite Hdata.
  mrun. rewrite (get_run _ _ _ _ o) by done. fold method.
  change (is_string method "GET" || is_string method "HEAD") with (bodyless method).
  rewrite Hmethod. mrun. rewrite Hkeys. destruct (decide (n = 0)) as [|_]; [done|].
  mrun. rewrite (get_run _ _ _ _ o) by done. rewrite Hurl. cbn [default from_option id].
  mrun. unfold reading at 1. cbn [heap]. rewrite Hq.
  rewrite (set_run _ _ _ _ _ o) by done. reflexivity.
Qed.

Lemma data_phase_body b :
  truthy data = true → bodyless method = false →
  JSON_stringify h data = Val b →
  run = (Val tt, State (<[options := <["body" := b]> o]> h) c).
Proof.
  intros Hdata Hmethod Hb. subst run. unfold mungOptionsForFetch_data.
  mrun. rewrite (get_run _ _ _ _ o) by done. fold data. rewrite Hdata.
  mrun. rewrite (get_run _ _ _ _ o) by done. fold method.
  change (is_string method "GET" || is_string method "HEAD") with (bodyless method).
  rewrite Hmethod. mrun. unfold reading at 1. cbn [heap]. rewrite Hb.
  rewrite (set_run _ _ _ _ _ o) by done. reflexivity.
Qed.

(** However the step ends, it has touched the descriptor only, and of the
    descriptor the url (for GET and HEAD) or the body (for the others). *)
Lemma data_phase_any r st' :
  run = (r, st') →
  ∃ o', st' = State (<[options := o']> h) c
    ∧ (∀ k, k ≠ "url" → k ≠ "body" → o' !! k = o !! k)
    ∧ (bodyless method = true → o' !! "body" = o !! "body")
    ∧ (bodyless method = false → o' !! "url" = o !! "url")
    ∧ (∀ d, data = VRef d → h !! d = Some ∅ → o' !! "url" = o !! "url")
    ∧ (truthy data = false → o' = o).
Proof.
  assert (∃ o', State h c = State (<[options := o']> h) c
    ∧ (∀ k, k ≠ "url" → k ≠ "body" → o' !! k = o !! k)
    ∧ (bodyless method = true → o' !! "body" = o !! "body")
    ∧ (bodyless method = false → o' !! "url" = o !! "url")
    ∧ (∀ d, data = VRef d → h !! d = Some ∅ → o' !! "url" = o !! "url")
    ∧ (truthy data = false → o' = o)) as Hsame.
  { exists o. rewrite list_insert_id by done. auto 10. }
  subst run. unfold mungOptionsForFetch_data.
  mrun. rewrite (get_run _ _ _ _ o) by done. fold data.
  destruct (truthy data) eqn:Hdata; [|intros [= <- <-]; exact Hsame].
  mrun. rewrite (get_run _ _ _ _ o) by done. fold method.
  change (is_string method "GET" || is_string method "HEAD") with (bodyless method).
  destruct (bodyless method) eqn:Hmethod.
  - mrun. pose proof (Object_keys_length_state data (State h c)) as Hst.
    destruct (Object_keys_length data (State h c)) as [[n|e|] st1] eqn:Hkeys;
      simpl in Hst; subst st1; [|intros [= <- <-]; exact Hsame..].
    destruct (decide (n = 0)) as [->|Hn]; [intros [= <- <-]; exact Hsame|].
    mrun. rewrite (get_run _ _ _ _ o) by done.
    destruct (default VUndef (o !! "url")) as [| | | |u| |] eqn:Hurl;
      try (intros [= <- <-]; exact Hsame).
    mrun. unfold reading at 1. cbn [heap].
    destruct (serializeQueryParams h data) as [q|e|]; [|intros [= <- <-]; exact Hsame..].
    rewrite (set_run _ _ _ _ _ o) by done. intros [= <- <-].
    eexists. split; [reflexivity|]. repeat split.
    + intros k Hk _. by rewrite lookup_insert_ne.
    + intros _. by rewrite lookup_insert_ne.
    + done.
    + intros d Hd Hempty. exfalso. apply Hn. rewrite Hd in Hkeys.
      rewrite (Object_keys_length_object _ _ _ _ Hempty) in Hkeys.
      injection Hkeys as <-. apply map_size_empty.
    + done.
  - mrun. unfold reading at 1. cbn [heap].
    destruct (JSON_stringify h data) as [b|e|]; [|intros [= <- <-]; exact Hsame..].
    rewrite (set_run _ _ _ _ _ o) by done. intros [= <- <-].
    eexists. split; [reflexivity|]. repeat split.
    + intros k _ Hk. by rewrite lookup_insert_ne.
    + done.
    + intros _. by rewrite lookup_insert_ne.
    + intros _ _ _. by rewrite lookup_insert_ne.
    + done.
Qed.

End DataPhase.

(** ** Lines 73 to 81: the default content type *)

Section ContentTypePhase.

Context (h : list obj) (c : list (list value)) (options : nat) (o : obj).
Hypothesis descriptor : h !! options = Some o.

Let method : value := default VUndef (o !! "method").
Let body : value := default VUndef (o !! "body").

Lemma wants_default_contentType_object t (hs : obj) :
  o !! "headers" = Some (VRef t) → h !! t = Some hs →
  wants_default_contentType options (State h c)
  = (Val (negb (is_string method "GET") && truthy body && negb (has_contentType hs)),
     State h c).
Proof.
  intros Hhs Ht. unfold wants_default_contentType.
  mrun. rewrite (get_run _ _ _ _ o) by done. fold method.
  mrun. rewrite (get_run _ _ _ _ o) by done. fold body.
  destruct (negb (is_string method "GET") && truthy body); [|reflexivity].
  mrun. rewrite (get_run _ _ _ _ o) by done. rewrite Hhs. cbn [default from_option id].
  destruct (decide (VRef t = VUndef)) as [|_]; [done|].
  mrun. rewrite (get_prop_object _ _ _ _ hs) by done. unfold has_contentType.
  destruct (truthy (default VUndef (hs !! "Content-Type"))); [reflexivity|].
  mrun. rewrite (get_prop_object _ _ _ _ hs) by done. reflexivity.
Qed.

Lemma wants_default_contentType_undefined :
  default VUndef (o !! "headers") = VUndef →
  wants_default_contentType options (State h c)
  = (Val (negb (is_string method "GET") && truthy body), State h c).
Proof.
  intros Hhs. unfold wants_default_contentType.
  mrun. rewrite (get_run _ _ _ _ o) by done. fold method.
  mrun. rewrite (get_run _ _ _ _ o) by done. fold body.
  destruct (negb (is_string method "GET") && truthy body); [|reflexivity].
  mrun. rewrite (get_run _ _ _ _ o) by done. rewrite Hhs.
  destruct (decide (VUndef = VUndef)); [reflexivity|done].
Qed.

(** With a headers object, the header is written into it when neither key
    has a truthy value. *)
Lemma contentType_phase_object t (hs : obj) :
  o !! "headers" = Some (VRef t) → h !! t = Some hs →
  mungOptionsForFetch_contentType options (State h c)
  = (Val tt,
     State (if negb (is_string method "GET") && truthy body && negb (has_contentType hs)
            then <[t := <["Content-Type" := json_contentType]> hs]> h
            else h) c).
Proof.
  intros Hhs Ht. unfold mungOptionsForFetch_contentType.
  mrun. rewrite (wants_default_contentType_object t hs) by done. fold method body.
  destruct (negb (is_string method "GET") && truthy body && negb (has_contentType hs));
    [|reflexivity].
  mrun. rewrite (get_run _ _ _ _ o) by done. rewrite Hhs. cbn [default from_option id truthy].
  mrun. rewrite run_ret. mrun.
  rewrite (set_run _ _ _ _ _ o) by done.
  rewrite (insert_id o "headers" (VRef t)) by done.
  rewrite (list_insert_id h options o) by done.
  unfold set_prop. rewrite (set_run _ _ _ _ _ hs) by done. reflexivity.
Qed.

(** Without headers, a new headers object holds it. *)
Lemma contentType_phase_undefined :
  default VUndef (o !! "headers") = VUndef →
  mungOptionsForFetch_contentType options (State h c)
  = (Val tt,
     if negb (is_string method "GET") && truthy body
     then State (<[options := <["headers" := VRef (length h)]> o]> h
                 ++ [{["Content-Type" := json_contentType]}]) c
     else State h c).
Proof.
  intros Hhs. pose proof (lookup_lt_Some _ _ _ descriptor) as Hlt.
  unfold mungOptionsForFetch_contentType.
  mrun. rewrite wants_default_contentType_undefined by done. fold method body.
  destruct (negb (is_string method "GET") && truthy body); [|reflexivity].
  mrun. rewrite (get_run _ _ _ _ o) by done. rewrite Hhs. cbn [truthy].
  mrun. rewrite alloc_run. mrun. rewrite run_ret. mrun.
  rewrite (set_run _ _ _ _ _ o) by by heap_simpl.
  unfold set_prop. rewrite (set_run _ _ _ _ _ ∅) by by heap_simpl.
  heap_simpl. rewrite insert_empty. reflexivity.
Qed.

End ContentTypePhase.

(** ** The three steps on a well-typed call *)

Section Whole.

Variable JSON_stringify : list obj → value → outcome value.
Variable serializeQueryParams : list obj → value → outcome string.

(** The first step returns the descriptor, a new object. *)
Lemma headers_phase h c _options (o : obj) adapter :
  h !! _options = Some o → well_typed h o adapter →
  ∃ h1 o1,
    mungOptionsForFetch_headers _options adapter (State h c) = (Val (length h), State h1 c)
    ∧ h1 !! length h = Some o1
    ∧ length h < length h1
    ∧ (∀ k, k ≠ "headers" → k ≠ "method" → k ≠ "credentials" → o1 !! k = o !! k)
    ∧ o1 !! "method" = Some (resolved_method o)
    ∧ (default VUndef (o1 !! "headers") = VUndef
       ∨ ∃ t hs, o1 !! "headers" = Some (VRef t) ∧ h1 !! t = Some hs ∧ t ≠ length h
           ∧ (t < length h → o !! "headers" = Some (VRef t)))
    ∧ (∀ l, l < length h → o !! "headers" ≠ Some (VRef l) → h1 !! l = h !! l).
Proof.
  intros Hbag [Hhs Hadapter]. pose proof (lookup_lt_Some _ _ _ Hbag) as Hlt.
  set (copy := o ∪ {["credentials" := VStr "same-origin"]}).
  assert (∀ k v, k ≠ "headers" → k ≠ "method" → k ≠ "credentials" →
          <["method" := resolved_method o]> (<["headers" := v]> copy) !! k = o !! k) as Hkeep.
  { intros k v ? ? ?. rewrite !lookup_insert_ne by done. by apply lookup_copy. }
  destruct Hadapter as [Hnone | (a & A & Ha & HA)].
  - eexists _, _. split; [apply headers_phase_none; [done | by rewrite Hnone]|].
    split; [by heap_simpl|]. split; [len|].
    split; [intros k ? ? ?; rewrite lookup_insert_ne by done; by apply lookup_copy|].
    split; [by rewrite lookup_insert_eq|].
    split.
    + rewrite lookup_insert_ne, lookup_copy by done.
      destruct Hhs as [Hundef | (cl & C & Hcl & HC)]; [by left|right].
      pose proof (lookup_lt_Some _ _ _ HC).
      destruct (o !! "headers") as [v|] eqn:Hv; simpl in Hcl; [subst v|done].
      exists cl, C. split_and!; [done | by heap_simpl | lia | done].
    + intros l ? _. by heap_simpl.
  - destruct Hhs as [Hundef | (cl & C & Hcl & HC)].
    + eexists _, _. split; [eapply headers_phase_fresh; [done..| by rewrite Hundef]|].
      change (h ++ [?x; A]) with (h ++ [x] ++ [A]). rewrite app_assoc.
      split; [by heap_simpl|]. split; [len|].
      split; [intros k; apply Hkeep|].
      split; [by rewrite lookup_insert_eq|].
      split.
      * right. exists (S (length h)), A.
        rewrite lookup_insert_ne, lookup_insert_eq by done.
        split_and!; [done | by heap_simpl | lia | lia].
      * intros l ? _. by heap_simpl.
    + pose proof (lookup_lt_Some _ _ _ HC).
      destruct (o !! "headers") as [v|] eqn:Hv; simpl in Hcl; [subst v|done].
      eexists _, _. split; [eapply headers_phase_supplied; done|].
      split; [by heap_simpl|]. split; [len|].
      split; [intros k; apply Hkeep|].
      split; [by rewrite lookup_insert_eq|].
      split.
      * right. exists cl, (A ∪ C).
        rewrite lookup_insert_ne, lookup_insert_eq by done.
        split_and!; [done | by heap_simpl | lia | done].
      * intros l ? Hl. heap_simpl. reflexivity.
Qed.

(** The last step always returns, and touches the descriptor's [headers]
    field and the headers object only. *)
Lemma contentType_phase h c options (o : obj) :
  h !! options = Some o →
  (default VUndef (o !! "headers") = VUndef
   ∨ ∃ t hs, o !! "headers" = Some (VRef t) ∧ h !! t = Some hs ∧ t ≠ options) →
  ∃ h' o',
    mungOptionsForFetch_contentType options (State h c) = (Val tt, State h' c)
    ∧ h' !! options = Some o'
    ∧ length h ≤ length h'
    ∧ (∀ k, k ≠ "headers" → o' !! k = o !! k)
    ∧ (∀ l, l < length h → l ≠ options → o !! "headers" ≠ Some (VRef l) →
       h' !! l = h !! l).
Proof.
  intros Hdesc Hhs. pose proof (lookup_lt_Some _ _ _ Hdesc) as Hlt.
  destruct Hhs as [Hundef | (t & hs & Ht & Hhs & Hne)].
  - rewrite (contentType_phase_undefined h c options o) by done.
    destruct (negb _ && _).
    + eexists _, _. split; [reflexivity|]. split; [by heap_simpl|]. split; [len|].
      split; [intros k ?; by rewrite lookup_insert_ne|].
      intros l ? ? _. by heap_simpl.
    + exists h, o. auto.
  - rewrite (contentType_phase_object h c options o Hdesc t hs) by done.
    pose proof (lookup_lt_Some _ _ _ Hhs).
    destruct (negb _ && _ && _).
    + exists (<[t := <["Content-Type" := json_contentType]> hs]> h), o.
      split; [reflexivity|]. split; [by heap_simpl|]. split; [len|].
      split; [done|].
      intros l ? ? Hl. rewrite list_lookup_insert_ne by congruence. reflexivity.
    + exists h, o. auto.
Qed.

(** However [mungOptionsForFetch] ends on a well-typed call: what the new
    descriptor holds, and what is left as it was. *)
Lemma mungOptionsForFetch_any h c _options (o : obj) adapter r st' :
  h !! _options = Some o → well_typed h o adapter →
  mungOptionsForFetch JSON_stringify serializeQueryParams _options adapter (State h c)
    = (r, st') →
  ∃ o',
    heap st' !! length h = Some o' ∧ console st' = c ∧ length h < length (heap st')
    ∧ (∀ res, r = Val res → res = length h)
    ∧ (∀ k, k ≠ "headers" → k ≠ "method" → k ≠ "credentials" → k ≠ "url" → k ≠ "body" →
       o' !! k = o !! k)
    ∧ o' !! "method" = Some (resolved_method o)
    ∧ (bodyless (resolved_method o) = true → o' !! "body" = o !! "body")
    ∧ (bodyless (resolved_method o) = false → o' !! "url" = o !! "url")
    ∧ (∀ d, o !! "data" = Some (VRef d) → h !! d = Some ∅ →
       o !! "headers" ≠ Some (VRef d) → o' !! "url" = o !! "url")
    ∧ (∀ l, l < length h → o !! "headers" ≠ Some (VRef l) → heap st' !! l = h !! l).
Proof.
  intros Hbag Htyped.
  destruct (headers_phase h c _options o adapter Hbag Htyped)
    as (h1 & o1 & Hrun1 & Hdesc1 & Hlen1 & Hkeep1 & Hmethod1 & Hhs1 & Hframe1).
  unfold mungOptionsForFetch. mrun. rewrite Hrun1. mrun.
  destruct (mungOptionsForFetch_data _ _ _ _) as [r2 st2] eqn:Hrun2.
  destruct (data_phase_any _ _ _ _ _ _ Hdesc1 _ _ Hrun2)
    as (o2 & -> & Hkeep2 & Hbody2 & Hurl2 & Hempty2 & _).
  rewrite Hmethod1 in Hbody2, Hurl2. cbn [default from_option id] in Hbody2, Hurl2.
  rewrite (Hkeep1 "data") in Hempty2 by done.
  assert (<[length h := o2]> h1 !! length h = Some o2) as Hdesc2 by by heap_simpl.
  assert (o2 !! "method" = Some (resolved_method o)) as Hmethod2
    by (rewrite Hkeep2 by done; done).
  assert (∀ k, k ≠ "headers" → k ≠ "method" → k ≠ "credentials" → k ≠ "url" →
          k ≠ "body" → o2 !! k = o !! k) as Hkeep12
    by (intros k ? ? ? ? ?; rewrite Hkeep2 by done; by apply Hkeep1).
  assert (bodyless (resolved_method o) = true → o2 !! "body" = o !! "body") as Hbody12
    by (intros Hb; rewrite Hbody2 by done; by apply Hkeep1).
  assert (bodyless (resolved_method o) = false → o2 !! "url" = o !! "url") as Hurl12
    by (intros Hb; rewrite Hurl2 by done; by apply Hkeep1).
  assert (∀ d, o !! "data" = Some (VRef d) → h !! d = Some ∅ →
          o !! "headers" ≠ Some (VRef d) → o2 !! "url" = o !! "url") as Hempty12.
  { intros d Hd Hh Hne. pose proof (lookup_lt_Some _ _ _ Hh).
    rewrite (Hempty2 d); [by apply Hkeep1 | by rewrite Hd | by rewrite Hframe1]. }
  assert (∀ l, l < length h → o !! "headers" ≠ Some (VRef l) →
          <[length h := o2]> h1 !! l = h !! l) as Hframe2
    by (intros l ? ?; rewrite list_lookup_insert_ne by lia; by apply Hframe1).
  destruct r2 as [[]|e|].
  - mrun.
    destruct (contentType_phase (<[length h := o2]> h1) c (length h) o2 Hdesc2)
      as (h3 & o3 & Hrun3 & Hdesc3 & Hlen3 & Hkeep3 & Hframe3).
    { rewrite (Hkeep2 "headers") by done.
      destruct Hhs1 as [?|(t & hs & Ht & Hhs & Hne & _)]; [by left|right].
      exists t, hs. split_and!; [done | by heap_simpl | done]. }
    rewrite Hrun3. mrun. rewrite run_ret. intros [= <- <-]. exists o3. cbn [heap console].
    rewrite length_insert in Hlen3, Hframe3.
    split_and!; try done.
    + lia.
    + by intros res [= <-].
    + intros k ? ? ? ? ?. rewrite Hkeep3 by done. by apply Hkeep12.
    + by rewrite Hkeep3.
    + intros ?. rewrite Hkeep3 by done. by apply Hbody12.
    + intros ?. rewrite Hkeep3 by done. by apply Hurl12.
    + intros d ? ? ?. rewrite Hkeep3 by done. by eapply Hempty12.
    + intros l Hl Hne. rewrite Hframe3; [by apply Hframe2 | lia | lia |].
      rewrite (Hkeep2 "headers") by done. intros Ho2.
      destruct Hhs1 as [Hu|(t & hs & Ht & _ & _ & Hcaller)].
      * by rewrite Ho2 in Hu.
      * rewrite Ht in Ho2. injection Ho2 as ->. auto.
  - intros [= <- <-]. exists o2. cbn [heap console]. rewrite length_insert.
    split_and!; done.
  - intros [= <- <-]. exists o2. cbn [heap console]. rewrite length_insert.
    split_and!; done.
Qed.

(** When the data step returns, so does [mungOptionsForFetch], and only
    the headers of the descriptor can still change. *)
Lemma mungOptionsForFetch_returns h c _options (o : obj) adapter st1 st2 :
  h !! _options = Some o → well_typed h o adapter →
  mungOptionsForFetch_headers _options adapter (State h c) = (Val (length h), st1) →
  mungOptionsForFetch_data JSON_stringify serializeQueryParams (length h) st1
    = (Val tt, st2) →
  ∃ st',
    mungOptionsForFetch JSON_stringify serializeQueryParams _options adapter (State h c)
      = (Val (length h), st')
    ∧ ∀ k, k ≠ "headers" → field st' (length h) k = field st2 (length h) k.
Proof.
  intros Hbag Htyped Hrun1' Hrun2.
  destruct (headers_phase h c _options o adapter Hbag Htyped)
    as (h1 & o1 & Hrun1 & Hdesc1 & Hlen1 & Hkeep1 & Hmethod1 & Hhs1 & Hframe1).
  rewrite Hrun1 in Hrun1'. injection Hrun1' as <-.
  destruct (data_phase_any _ _ _ _ _ _ Hdesc1 _ _ Hrun2) as (o2 & -> & Hkeep2 & _).
  assert (<[length h := o2]> h1 !! length h = Some o2) as Hdesc2 by by heap_simpl.
  destruct (contentType_phase (<[length h := o2]> h1) c (length h) o2 Hdesc2)
    as (h3 & o3 & Hrun3 & Hdesc3 & Hlen3 & Hkeep3 & Hframe3).
  { rewrite (Hkeep2 "headers") by done.
    destruct Hhs1 as [?|(t & hs & Ht & Hhs & Hne & _)]; [by left|right].
    exists t, hs. split_and!; [done | by heap_simpl | done]. }
  exists (State h3 c). split.
  - unfold mungOptionsForFetch. mrun. rewrite Hrun1. mrun. rewrite Hrun2. mrun.
    rewrite Hrun3. reflexivity.
  - intros k Hk. unfold field. cbn [heap]. rewrite Hdesc3, Hdesc2. simpl. by apply Hkeep3.
Qed.

(** GET and HEAD with a payload that has keys: the query string. *)
Lemma mungOptionsForFetch_query h c _options (o : obj) adapter st1 data n u q :
  h !! _options = Some o → well_typed h o adapter →
  bodyless (resolved_method o) = true →
  mungOptionsForFetch_headers _options adapter (State h c) = (Val (length h), st1) →
  o !! "data" = Some data → truthy data = true →
  Object_keys_length data st1 = (Val n, st1) → n ≠ 0 →
  o !! "url" = Some (VStr u) →
  serializeQueryParams (heap st1) data = Val q →
  ∃ st',
    mungOptionsForFetch JSON_stringify serializeQueryParams _options adapter (State h c)
      = (Val (length h), st')
    ∧ field st' (length h) "url" = Some (VStr (u +:+ queryParamDelimiter u +:+ q)).
Proof.
  intros Hbag Htyped Hmethod Hrun1' Hdata Htruthy Hkeys Hn Hurl Hq.
  destruct (headers_phase h c _options o adapter Hbag Htyped)
    as (h1 & o1 & Hrun1 & Hdesc1 & Hlen1 & Hkeep1 & Hmethod1 & Hhs1 & Hframe1).
  pose proof Hrun1' as Hst1. rewrite Hrun1 in Hst1. injection Hst1 as <-.
  cbn [heap] in Hq.
  assert (o1 !! "data" = Some data) as Hdata1 by (rewrite Hkeep1 by done; done).
  assert (o1 !! "url" = Some (VStr u)) as Hurl1 by (rewrite Hkeep1 by done; done).
  pose proof (data_phase_query JSON_stringify serializeQueryParams h1 c (length h) o1
                Hdesc1 n u q) as Hrun2.
  rewrite Hdata1, Hmethod1 in Hrun2. cbn [default from_option id] in Hrun2.
  specialize (Hrun2 Htruthy Hmethod Hkeys Hn Hurl1 Hq).
  destruct (mungOptionsForFetch_returns h c _options o adapter _ _ Hbag Htyped Hrun1' Hrun2)
    as (st' & Hrun & Hfields).
  exists st'. split; [done|]. rewrite Hfields by done.
  unfold field. cbn [heap]. rewrite list_lookup_insert_eq by lia. simpl.
  by rewrite lookup_insert_eq.
Qed.

End Whole.


(** ** The claims about [mungOptionsForFetch] *)


(** C4 (amended). When the descriptor has a method other than GET and a
    truthy body after the first two steps, [mungOptionsForFetch] writes
    [Content-Type: application/json; charset=utf-8] into the headers object
    exactly when that object has a truthy value under neither of the two keys
    [Content-Type] and [content-type], and leaves it as it is otherwise;
    without a headers object it makes one that holds the header. *)
Theorem mungOptionsForFetch_contentType_default JSON_stringify serializeQueryParams
    _options adapter st l st1 h2 c (o2 : obj) :
  mungOptionsForFetch_headers _options adapter st = (Val l, st1) →
  mungOptionsForFetch_data JSON_stringify serializeQueryParams l st1 = (Val tt, State h2 c) →
  h2 !! l = Some o2 →
  is_string (default VUndef (o2 !! "method")) "GET" = false →
  truthy (default VUndef (o2 !! "body")) = true →
  (∀ t (hs : obj), o2 !! "headers" = Some (VRef t) → h2 !! t = Some hs →
     mungOptionsForFetch JSON_stringify serializeQueryParams _options adapter st =
     (Val l,
      State (if has_contentType hs then h2
             else <[t := <["Content-Type" := json_contentType]> hs]> h2) c))
  ∧ (default VUndef (o2 !! "headers") = VUndef →
     mungOptionsForFetch JSON_stringify serializeQueryParams _options adapter st =
     (Val l,
      State (<[l := <["headers" := VRef (length h2)]> o2]> h2
             ++ [{["Content-Type" := json_contentType]}]) c)).
Proof.
  intros Hrun1 Hrun2 Hdesc Hmethod Hbody.
  unfold mungOptionsForFetch. mrun. rewrite Hrun1. mrun. rewrite Hrun2. mrun.
  split.
  - intros t hs Hhs Ht.
    rewrite (contentType_phase_object h2 c l o2 Hdesc t hs Hhs Ht), Hmethod, Hbody.
    cbn [negb andb]. destruct (has_contentType hs); reflexivity.
  - intros Hundef.
    rewrite (contentType_phase_undefined h2 c l o2 Hdesc Hundef), Hmethod, Hbody.
    reflexivity.
Qed.

(** The body of a descriptor for GET or HEAD is the one of the bag. *)
Lemma mungOptionsForFetch_body JSON_stringify serializeQueryParams
    h c _options (o : obj) adapter r st' :
  h !! _options = Some o → well_typed h o adapter →
  bodyless (resolved_method o) = true →
  mungOptionsForFetch JSON_stringify serializeQueryParams _options adapter (State h c)
    = (r, st') →
  field st' (length h) "body" = o !! "body".
Proof.
  intros Hbag Htyped Hmethod Hrun.
  destruct (mungOptionsForFetch_any _ _ _ _ _ _ _ _ _ Hbag Htyped Hrun)
    as (o' & Hdesc & _ & _ & _ & _ & _ & Hbody & _).
  unfold field. rewrite Hdesc. simpl. by apply Hbody.
Qed.

(** C6 (amended). For GET and HEAD, on a well-typed call,
    [mungOptionsForFetch] never writes the body field: however it ends, the
    body field of the descriptor is the one the caller's bag has, and there
    is none when the bag has none; and a truthy payload with keys is
    serialized and appended to the url of the returned descriptor. *)
Theorem mungOptionsForFetch_bodyless JSON_stringify serializeQueryParams
    h c _options (o : obj) adapter :
  h !! _options = Some o → well_typed h o adapter →
  bodyless (resolved_method o) = true →
  (∀ r st',
     mungOptionsForFetch JSON_stringify serializeQueryParams _options adapter (State h c)
       = (r, st') →
     field st' (length h) "body" = o !! "body")
  ∧ (∀ st1 data n u q,
       mungOptionsForFetch_headers _options adapter (State h c) = (Val (length h), st1) →
       o !! "data" = Some data → truthy data = true →
       Object_keys_length data st1 = (Val n, st1) → n ≠ 0 →
       o !! "url" = Some (VStr u) →
       serializeQueryParams (heap st1) data = Val q →
       ∃ st',
         mungOptionsForFetch JSON_stringify serializeQueryParams _options adapter (State h c)
           = (Val (length h), st')
         ∧ field st' (length h) "url" = Some (VStr (u +:+ queryParamDelimiter u +:+ q))
         ∧ field st' (length h) "body" = o !! "body").
Proof.
  intros Hbag Htyped Hmethod. split.
  - intros r st'. by apply mungOptionsForFetch_body.
  - intros st1 data n u q Hrun1 Hdata Htruthy Hkeys Hn Hurl Hq.
    destruct (mungOptionsForFetch_query JSON_stringify serializeQueryParams
                h c _options o adapter st1 data n u q) as (st' & Hrun & Hurl'); try done.
    exists st'. split_and!; [done..|]. by eapply mungOptionsForFetch_body.
Qed.

(** C7 (amended). When the data payload is an object without keys that is
    not also the headers object of the bag, on a well-typed call: however
    [mungOptionsForFetch] ends, the url of the descriptor is the url of the
    bag; and it returns the descriptor, for GET and HEAD always and for the
    other methods when [JSON.stringify] returns. *)
Theorem mungOptionsForFetch_empty_data JSON_stringify serializeQueryParams
    h c _options (o : obj) adapter d :
  h !! _options = Some o → well_typed h o adapter →
  o !! "data" = Some (VRef d) → h !! d = Some ∅ →
  o !! "headers" ≠ Some (VRef d) →
  (∀ r st',
     mungOptionsForFetch JSON_stringify serializeQueryParams _options adapter (State h c)
       = (r, st') →
     field st' (length h) "url" = o !! "url")
  ∧ (∀ st1,
       mungOptionsForFetch_headers _options adapter (State h c) = (Val (length h), st1) →
       bodyless (resolved_method o) = true
       ∨ (∃ b, JSON_stringify (heap st1) (VRef d) = Val b) →
       ∃ st',
         mungOptionsForFetch JSON_stringify serializeQueryParams _options adapter (State h c)
           = (Val (length h), st')
         ∧ field st' (length h) "url" = o !! "url").
Proof.
  intros Hbag Htyped Hdata Hempty Halias.
  assert (∀ r st',
     mungOptionsForFetch JSON_stringify serializeQueryParams _options adapter (State h c)
       = (r, st') →
     field st' (length h) "url" = o !! "url") as Hurl.
  { intros r st' Hrun.
    destruct (mungOptionsForFetch_any _ _ _ _ _ _ _ _ _ Hbag Htyped Hrun)
      as (o' & Hdesc & _ & _ & _ & _ & _ & _ & _ & Hurl & _).
    unfold field. rewrite Hdesc. simpl. by eapply Hurl. }
  split; [exact Hurl|].
  intros st1 Hrun1' Hcase.
  destruct (headers_phase h c _options o adapter Hbag Htyped)
    as (h1 & o1 & Hrun1 & Hdesc1 & Hlen1 & Hkeep1 & Hmethod1 & Hhs1 & Hframe1).
  pose proof Hrun1' as Hst1. rewrite Hrun1 in Hst1. injection Hst1 as <-.
  pose proof (lookup_lt_Some _ _ _ Hempty).
  assert (h1 !! d = Some ∅) as Hempty1 by (rewrite Hframe1 by done; done).
  assert (o1 !! "data" = Some (VRef d)) as Hdata1 by (rewrite Hkeep1 by done; done).
  assert (∃ st2, mungOptionsForFetch_data JSON_stringify serializeQueryParams (length h)
                   (State h1 c) = (Val tt, st2)) as [st2 Hrun2].
  { destruct (bodyless (resolved_method o)) eqn:Hmethod.
    - eexists. apply (data_phase_empty _ _ h1 c (length h) o1 Hdesc1).
      + by rewrite Hdata1.
      + by rewrite Hmethod1.
      + rewrite Hdata1. cbn [default from_option id].
        rewrite (Object_keys_length_object _ _ _ _ Hempty1). by rewrite map_size_empty.
    - destruct Hcase as [|[b Hb]]; [done|].
      eexists. apply (data_phase_body _ _ h1 c (length h) o1 Hdesc1 b).
      + by rewrite Hdata1.
      + by rewrite Hmethod1.
      + by rewrite Hdata1. }
  destruct (mungOptionsForFetch_returns JSON_stringify serializeQueryParams
              h c _options o adapter _ _ Hbag Htyped Hrun1' Hrun2) as (st' & Hrun & _).
  exists st'. split; [done|]. by eapply Hurl.
Qed.

(** [indexOf] finds the character exactly when the string has it. *)
Lemma indexOf_bound s a : (-1 ≤ indexOf s a)%Z.
Proof.
  induction s as [|b s IH]; simpl; [lia|].
  destruct (Ascii.eqb b a); [lia|]. destruct (Z.ltb_spec (indexOf s a) 0); lia.
Qed.

Lemma indexOf_found s a :
  (indexOf s a >? -1)%Z = true ↔ In a (list_ascii_of_string s).
Proof.
  induction s as [|b s IH]; simpl; [by split|].
  destruct (Ascii.eqb_spec b a) as [->|Hne].
  - split; [by left | done].
  - pose proof (indexOf_bound s a).
    destruct (Z.ltb_spec (indexOf s a) 0) as [Hlt|Hge].
    + split; [done|]. intros [|Hin]; [done|]. apply IH in Hin. lia.
    + split; [intros _; right; apply IH; lia | intros _; lia].
Qed.

(** C8. For GET and HEAD with a truthy payload that has keys, on a
    well-typed call, the returned descriptor has the url of the bag followed
    by [&] when that url has a [?] and by [?] otherwise, and then by the
    serialized payload. *)
Theorem mungOptionsForFetch_query_delimiter JSON_stringify serializeQueryParams
    h c _options (o : obj) adapter st1 data n u q :
  h !! _options = Some o → well_typed h o adapter →
  bodyless (resolved_method o) = true →
  mungOptionsForFetch_headers _options adapter (State h c) = (Val (length h), st1) →
  o !! "data" = Some data → truthy data = true →
  Object_keys_length data st1 = (Val n, st1) → n ≠ 0 →
  o !! "url" = Some (VStr u) →
  serializeQueryParams (heap st1) data = Val q →
  ∃ st',
    mungOptionsForFetch JSON_stringify serializeQueryParams _options adapter (State h c)
      = (Val (length h), st')
    ∧ (In "?"%char (list_ascii_of_string u) →
       field st' (length h) "url" = Some (VStr (u +:+ "&" +:+ q)))
    ∧ (¬ In "?"%char (list_ascii_of_string u) →
       field st' (length h) "url" = Some (VStr (u +:+ "?" +:+ q))).
Proof.
  intros Hbag Htyped Hmethod Hrun1 Hdata Htruthy Hkeys Hn Hurl Hq.
  destruct (mungOptionsForFetch_query JSON_stringify serializeQueryParams
              h c _options o adapter st1 data n u q) as (st' & Hrun & Hurl'); try done.
  exists st'. split; [done|]. unfold queryParamDelimiter in Hurl'.
  split; intros Hin.
  - apply indexOf_found in Hin. by rewrite Hin in Hurl'.
  - destruct (indexOf u "?" >? -1)%Z eqn:Hfound; [|done].
    apply indexOf_found in Hfound. done.
Qed.

(** ** The claims about [ajaxOptions] *)

Lemma optional_object_mono (h h' : list obj) v :
  (∀ l, is_Some (h !! l) → is_Some (h' !! l)) →
  optional_object h v → optional_object h' v.
Proof.
  intros Hmono [->|(l & x & -> & Hl)]; [by left|right].
  destruct (Hmono l) as [x' Hx']; [by eexists|]. by exists l, x'.
Qed.

(** C3 (amended). On a well-typed call with an option bag that is not its
    own headers object, however [ajaxOptions] ends: the bag has its fields
    of before with [url] and [type] set to the arguments; nothing is logged;
    a returned descriptor is an object that did not exist before; and every
    other object, the headers object of the bag apart, is as it was. *)
Theorem ajaxOptions_side_effects JSON_stringify serializeQueryParams
    adapter url type h c b (o : obj) r st' :
  h !! b = Some o → well_typed h o adapter → o !! "headers" ≠ Some (VRef b) →
  ajaxOptions JSON_stringify serializeQueryParams adapter url type (Some b) (State h c)
    = (r, st') →
  heap st' !! b = Some (<["type" := VStr type]> (<["url" := VStr url]> o))
  ∧ console st' = c
  ∧ (∀ l, r = Val l → length h < l ∧ is_Some (heap st' !! l))
  ∧ (∀ l, l < length h → l ≠ b → o !! "headers" ≠ Some (VRef l) →
     heap st' !! l = h !! l).
Proof.
  intros Hbag [Hhs Hadapter] Hself. pose proof (lookup_lt_Some _ _ _ Hbag) as Hlt.
  set (ob := <["type" := VStr type]> (<["url" := VStr url]> o)).
  set (copy := <["type" := VStr type]> (<["url" := VStr url]> ob)).
  set (hB := <[b := ob]> h ++ [copy]).
  assert (ajaxOptions JSON_stringify serializeQueryParams adapter url type (Some b) (State h c)
          = mungOptionsForFetch JSON_stringify serializeQueryParams (length h) adapter
              (State hB c)) as ->.
  { unfold ajaxOptions. mrun. rewrite run_ret. mrun.
    rewrite (set_run _ _ _ _ _ o) by done. mrun.
    rewrite (set_run _ _ _ _ _ (<["url" := VStr url]> o)) by by heap_simpl.
    mrun. heap_simpl. fold ob.
    unfold read_obj at 1. cbn [heap]. rewrite list_lookup_insert_eq by done.
    mrun. rewrite alloc_run, length_insert. reflexivity. }
  assert (length hB = S (length h)) as HlenB by (subst hB; len).
  assert (hB !! length h = Some copy) as HbagB by (subst hB; by heap_simpl).
  assert (copy !! "headers" = o !! "headers") as Hcopy
    by (subst copy ob; by rewrite !lookup_insert_ne).
  assert (∀ l, is_Some (h !! l) → is_Some (hB !! l)) as Hmono.
  { intros l Hl. apply lookup_lt_is_Some. apply lookup_lt_is_Some in Hl. lia. }
  assert (well_typed hB copy adapter) as Htyped.
  { split; [rewrite Hcopy|]; by eapply optional_object_mono. }
  intros Hrun.
  destruct (mungOptionsForFetch_any _ _ _ _ _ _ _ _ _ HbagB Htyped Hrun)
    as (o' & Hdesc & Hconsole & Hlen & Hres & _ & _ & _ & _ & _ & Hframe).
  rewrite Hcopy in Hframe. rewrite HlenB in Hdesc, Hlen, Hres, Hframe.
  split_and!.
  - rewrite Hframe by (done || lia). subst hB. by heap_simpl.
  - done.
  - intros l ->. rewrite (Hres l eq_refl). split; [lia | by eexists].
  - intros l ? ? ?. rewrite Hframe by (done || lia). subst hB. by heap_simpl.
Qed.

(** ** The scenarios of the specification, run on the sample collaborators *)


(** [ajaxOptions] writes [url] and [type] into the bag it is given. *)
Lemma ajaxOptions_side_effects_witness :
  heap (snd (ajaxOptions sample_JSON_stringify sample_serializeQueryParams
               (sample_adapter VUndef) "/widgets" "GET" (Some 0)
               (State [ {["data" := VRef 1]}; {["sort" := VStr "id"]} ] []))) !! 0
  = Some (<["type" := VStr "GET"]> (<["url" := VStr "/widgets"]> {["data" := VRef 1]})).
Proof.
  refine (proj1 (ajaxOptions_side_effects
                   sample_JSON_stringify sample_serializeQueryParams
                   (sample_adapter VUndef) "/widgets" "GET"
                   [ {["data" := VRef 1]}; {["sort" := VStr "id"]} ] [] 0
                   {["data" := VRef 1]} _ _ _ _ _ (surjective_pairing _))).
  - reflexivity.
  - split; left; reflexivity.
  - vm_compute. discriminate.
Defined.

(** C3, the claim as the specification states it, fails: the call above
    does not leave the caller's bag unchanged. *)
Lemma ajaxOptions_mutates_options :
  ¬ unchanged
      (State [ {["data" := VRef 1]}; {["sort" := VStr "id"]} ] [])
      (snd (ajaxOptions sample_JSON_stringify sample_serializeQueryParams
              (sample_adapter VUndef) "/widgets" "GET" (Some 0)
              (State [ {["data" := VRef 1]}; {["sort" := VStr "id"]} ] []))).
Proof.
  intros Hunchanged.
  specialize (Hunchanged 0 {["data" := VRef 1]} eq_refl).
  apply (f_equal (λ o : option obj, o ≫= λ o, o !! "url")) in Hunchanged.
  vm_compute in Hunchanged. discriminate.
Qed.

(** [ajax("/widgets", "POST", {data: {name: "a"}})]: the body is the encoded
    payload and a new headers object holds the default content type. *)
Lemma mungOptionsForFetch_contentType_default_witness :
  let r := mungOptionsForFetch sample_JSON_stringify sample_serializeQueryParams 0
             (sample_adapter VUndef)
             (State [ {["url" := VStr "/widgets"; "type" := VStr "POST"; "data" := VRef 1]};
                      {["name" := VStr "a"]} ] []) in
  r.1 = Val 2
  ∧ field r.2 2 "method" = Some (VStr "POST")
  ∧ field r.2 2 "body"
    = Some (VStr ("{" +:+ quote +:+ "name" +:+ quote +:+ ":" +:+ quote +:+ "a" +:+ quote +:+ "}"))
  ∧ field r.2 2 "headers" = Some (VRef 3)
  ∧ field r.2 3 "Content-Type" = Some json_contentType.
Proof.
  set (st := State [ {["url" := VStr "/widgets"; "type" := VStr "POST"; "data" := VRef 1]};
                     {["name" := VStr "a"]} ] []).
  set (st1 := snd (mungOptionsForFetch_headers 0 (sample_adapter VUndef) st)).
  set (h2 := heap (snd (mungOptionsForFetch_data sample_JSON_stringify
                          sample_serializeQueryParams 2 st1))).
  destruct (mungOptionsForFetch_contentType_default
              sample_JSON_stringify sample_serializeQueryParams 0 (sample_adapter VUndef)
              st 2 st1 h2 [] (default ∅ (h2 !! 2))) as [_ Hundefined];
    [vm_compute; reflexivity..|].
  intros r. subst r. rewrite Hundefined by (vm_compute; reflexivity).
  vm_compute. split_and!; reflexivity.
Defined.

(** C4, the claim as the specification states it, fails: a caller who
    supplies [Content-type] has supplied a content-type header, whatever the
    letter case, and the default is set all the same. *)
Lemma contentType_check_is_case_sensitive :
  let before : obj := {["Content-type" := VStr "text/plain"]} in
  let r := mungOptionsForFetch sample_JSON_stringify sample_serializeQueryParams 0
             (sample_adapter VUndef)
             (State [ {["url" := VStr "/widgets"; "type" := VStr "POST";
                        "data" := VRef 1; "headers" := VRef 2]};
                      {["name" := VStr "a"]};
                      before ] []) in
  r.1 = Val 3
  ∧ field r.2 3 "headers" = Some (VRef 2)
  ∧ ∃ after, heap r.2 !! 2 = Some after ∧ ¬ contentType_rule_as_specified before after.
Proof.
  intros before r. split_and!; [vm_compute; reflexivity..|].
  exists (default ∅ (heap r.2 !! 2)). split; [vm_compute; reflexivity|].
  intros [Hset _].
  assert (supplies_contentType before = false) as Hsupplied.
  { apply Hset. split; [vm_compute; discriminate | vm_compute; reflexivity]. }
  vm_compute in Hsupplied. discriminate.
Qed.

(** [ajax("/widgets?page=2", "GET", {data: {sort: "id"}})]: the payload is
    in the url and there is no body. *)
Lemma mungOptionsForFetch_bodyless_witness :
  ∃ st',
    mungOptionsForFetch sample_JSON_stringify sample_serializeQueryParams 0
      (sample_adapter VUndef)
      (State [ {["url" := VStr "/widgets?page=2"; "type" := VStr "GET"; "data" := VRef 1]};
               {["sort" := VStr "id"]} ] [])
    = (Val 2, st')
    ∧ field st' 2 "url" = Some (VStr "/widgets?page=2&sort=id")
    ∧ field st' 2 "body" = None.
Proof.
  set (o := {["url" := VStr "/widgets?page=2"; "type" := VStr "GET"; "data" := VRef 1]} : obj).
  set (h := [ o; {["sort" := VStr "id"]} ]).
  destruct (mungOptionsForFetch_bodyless sample_JSON_stringify sample_serializeQueryParams
              h [] 0 o (sample_adapter VUndef)) as [_ Hquery];
    [reflexivity | split; left; reflexivity | reflexivity |].
  destruct (Hquery (snd (mungOptionsForFetch_headers 0 (sample_adapter VUndef) (State h [])))
              (VRef 1) 1 "/widgets?page=2" "sort=id") as (st' & Hrun & Hurl & Hbody);
    [vm_compute; reflexivity | reflexivity | reflexivity | vm_compute; reflexivity
    | discriminate | reflexivity | vm_compute; reflexivity |].
  exists st'. split_and!; [exact Hrun | exact Hurl | exact Hbody].
Defined.

(** C6, the claim as the specification states it, fails: a bag for GET
    that has a body gives a descriptor that has this body, copied by lines
    38 to 43. *)
Lemma mungOptionsForFetch_copies_body :
  let o : obj := {["url" := VStr "/widgets"; "type" := VStr "GET"; "body" := VStr "x"]} in
  let r := mungOptionsForFetch sample_JSON_stringify sample_serializeQueryParams 0
             (sample_adapter VUndef) (State [o] []) in
  bodyless (resolved_method o) = true
  ∧ r.1 = Val 1
  ∧ field r.2 1 "body" = Some (VStr "x")
  ∧ ¬ (field r.2 1 "body" = None).
Proof.
  intros o r. split_and!; [vm_compute; reflexivity..|].
  vm_compute. discriminate.
Qed.

(** A GET and a POST whose data is the empty object: the url is the one
    given. *)
Lemma mungOptionsForFetch_empty_data_witness :
  (∃ st',
     mungOptionsForFetch sample_JSON_stringify sample_serializeQueryParams 0
       (sample_adapter (VRef 2))
       (State [ {["url" := VStr "/widgets"; "type" := VStr "GET"; "data" := VRef 1]}; ∅;
                {["X" := VStr "a"]} ] [])
     = (Val 3, st')
     ∧ field st' 3 "url" = Some (VStr "/widgets"))
  ∧ (∃ st',
       mungOptionsForFetch sample_JSON_stringify sample_serializeQueryParams 0
         (sample_adapter VUndef)
         (State [ {["url" := VStr "/widgets"; "type" := VStr "POST"; "data" := VRef 1]}; ∅ ]
            [])
       = (Val 2, st')
       ∧ field st' 2 "url" = Some (VStr "/widgets")).
Proof.
  split.
  - set (o := {["url" := VStr "/widgets"; "type" := VStr "GET"; "data" := VRef 1]} : obj).
    set (h := [ o; ∅; {["X" := VStr "a"]} ]).
    destruct (mungOptionsForFetch_empty_data sample_JSON_stringify
                sample_serializeQueryParams h [] 0 o (sample_adapter (VRef 2)) 1)
      as [_ Hreturns];
      [reflexivity
      | split; [left; reflexivity | right; exists 2, {["X" := VStr "a"]}; split; reflexivity]
      | reflexivity | reflexivity | vm_compute; discriminate |].
    destruct (Hreturns (snd (mungOptionsForFetch_headers 0 (sample_adapter (VRef 2))
                               (State h []))))
      as (st' & Hrun & Hurl); [vm_compute; reflexivity | left; reflexivity |].
    exists st'. split; [exact Hrun | exact Hurl].
  - set (o := {["url" := VStr "/widgets"; "type" := VStr "POST"; "data" := VRef 1]} : obj).
    set (h := [ o; ∅ ]).
    destruct (mungOptionsForFetch_empty_data sample_JSON_stringify
                sample_serializeQueryParams h [] 0 o (sample_adapter VUndef) 1)
      as [_ Hreturns];
      [reflexivity | split; left; reflexivity | reflexivity | reflexivity
      | vm_compute; discriminate |].
    destruct (Hreturns (snd (mungOptionsForFetch_headers 0 (sample_adapter VUndef)
                               (State h []))))
      as (st' & Hrun & Hurl);
      [vm_compute; reflexivity | right; eexists; vm_compute; reflexivity |].
    exists st'. split; [exact Hrun | exact Hurl].
Defined.

(** C7, the claim as the specification states it, fails: when the empty
    data object is also the headers object of the bag, line 47 writes the
    adapter headers into it before line 57 counts its keys, and they are
    appended to the url. *)
Lemma mungOptionsForFetch_empty_data_aliased :
  let o : obj := {["url" := VStr "/widgets"; "type" := VStr "GET";
                   "data" := VRef 1; "headers" := VRef 1]} in
  let h : list obj := [ o; ∅; {["X" := VStr "a"]} ] in
  let r := mungOptionsForFetch sample_JSON_stringify sample_serializeQueryParams 0
             (sample_adapter (VRef 2)) (State h []) in
  o !! "data" = Some (VRef 1)
  ∧ h !! 1 = Some ∅
  ∧ r.1 = Val 3
  ∧ field r.2 3 "url" = Some (VStr "/widgets?X=a")
  ∧ ¬ (field r.2 3 "url" = o !! "url").
Proof.
  intros o h r. split_and!; [vm_compute; reflexivity..|].
  vm_compute. discriminate.
Qed.

(** A HEAD on a url without query string, and a GET on one with. *)
Lemma mungOptionsForFetch_query_delimiter_witness :
  (∃ st',
     mungOptionsForFetch sample_JSON_stringify sample_serializeQueryParams 0
       (sample_adapter VUndef)
       (State [ {["url" := VStr "/widgets"; "type" := VStr "HEAD"; "data" := VRef 1]};
                {["sort" := VStr "id"]} ] [])
     = (Val 2, st')
     ∧ field st' 2 "url" = Some (VStr "/widgets?sort=id"))
  ∧ (∃ st',
       mungOptionsForFetch sample_JSON_stringify sample_serializeQueryParams 0
         (sample_adapter VUndef)
         (State [ {["url" := VStr "/widgets?page=2"; "type" := VStr "GET"; "data" := VRef 1]};
                  {["sort" := VStr "id"]} ] [])
       = (Val 2, st')
       ∧ field st' 2 "url" = Some (VStr "/widgets?page=2&sort=id")).
Proof.
  split.
  - set (o := {["url" := VStr "/widgets"; "type" := VStr "HEAD"; "data" := VRef 1]} : obj).
    set (h := [ o; {["sort" := VStr "id"]} ]).
    destruct (mungOptionsForFetch_query_delimiter
                sample_JSON_stringify sample_serializeQueryParams
                h [] 0 o (sample_adapter VUndef)
                (snd (mungOptionsForFetch_headers 0 (sample_adapter VUndef) (State h [])))
                (VRef 1) 1 "/widgets" "sort=id") as (st' & Hrun & _ & Hwithout);
      [reflexivity | split; left; reflexivity | reflexivity | vm_compute; reflexivity
      | reflexivity | reflexivity | vm_compute; reflexivity | discriminate
      | reflexivity | vm_compute; reflexivity |].
    exists st'. split; [exact Hrun|]. apply Hwithout. simpl. intuition discriminate.
  - set (o := {["url" := VStr "/widgets?page=2"; "type" := VStr "GET"; "data" := VRef 1]}
             : obj).
    set (h := [ o; {["sort" := VStr "id"]} ]).
    destruct (mungOptionsForFetch_query_delimiter
                sample_JSON_stringify sample_serializeQueryParams
                h [] 0 o (sample_adapter VUndef)
                (snd (mungOptionsForFetch_headers 0 (sample_adapter VUndef) (State h [])))
                (VRef 1) 1 "/widgets?page=2" "sort=id") as (st' & Hrun & Hwith & _);
      [reflexivity | split; left; reflexivity | reflexivity | vm_compute; reflexivity
      | reflexivity | reflexivity | vm_compute; reflexivity | discriminate
      | reflexivity | vm_compute; reflexivity |].
    exists st'. split; [exact Hrun|]. apply Hwith. simpl. tauto.
Defined.

(** * Further properties of the module *)

(** ** [headersToObject] *)

Lemma headers_fold_other (entries : list (string * string)) (m : gmap string string) k :
  k ∉ entries.*1 →
  fold_left assign_header entries m !! k = m !! k.
Proof.
  revert m. induction entries as [|[k' v'] entries IH]; intros m Hk; [done|].
  simpl in *. apply not_elem_of_cons in Hk as [Hne Hk].
  rewrite IH by done. unfold assign_header. simpl.
  destruct (String.eqb k' "__proto__"); [done|]. by apply lookup_insert_ne.
Qed.

Lemma headers_fold_proto (entries : list (string * string)) (m : gmap string string) :
  fold_left assign_header entries m !! "__proto__" = m !! "__proto__".
Proof.
  revert m. induction entries as [|[k' v'] entries IH]; intros m; [done|].
  simpl. rewrite IH. unfold assign_header. simpl.
  destruct (String.eqb_spec k' "__proto__") as [->|Hne]; [done|].
  by apply lookup_insert_ne.
Qed.

(** X1. The object has, under a header name other than [__proto__], the
    value of the last entry of that name: later duplicates overwrite earlier
    ones.  The name [__proto__] is never a key of the object. *)
Theorem headersToObject_last_wins (before after : list (string * string)) k v :
  (k ≠ "__proto__" → k ∉ after.*1 →
   headersToObject (Some (before ++ (k, v) :: after)) !! k = Some v)
  ∧ headersToObject (Some (before ++ (k, v) :: after)) !! "__proto__" = None.
Proof.
  split.
  - intros Hproto Hk. unfold headersToObject. rewrite fold_left_app. simpl.
    rewrite headers_fold_other by done. unfold assign_header. simpl.
    destruct (String.eqb_spec k "__proto__"); [done|]. apply lookup_insert_eq.
  - unfold headersToObject. by rewrite headers_fold_proto.
Qed.

Lemma headersToObject_last_wins_witness :
  headersToObject (Some [("etag", "1"); ("x-a", "b"); ("etag", "2"); ("x-c", "d")]) !! "etag"
  = Some "2".
Proof.
  apply (proj1 (headersToObject_last_wins [("etag", "1"); ("x-a", "b")] [("x-c", "d")]
                  "etag" "2")).
  - discriminate.
  - apply (bool_decide_unpack _). vm_compute. exact I.
Defined.

(** X2. The object has no other key than the names of the entries, and
    none at all when the response has no headers. *)
Theorem headersToObject_absent hs k :
  (∀ entries, hs = Some entries → k ∉ entries.*1) →
  headersToObject hs !! k = None.
Proof.
  intros Hk. destruct hs as [entries|]; simpl; [|done].
  rewrite headers_fold_other by auto. done.
Qed.

Lemma headersToObject_absent_witness :
  headersToObject None !! "etag" = None
  ∧ headersToObject (Some [("x-a", "b")]) !! "etag" = None.
Proof.
  split.
  - apply headersToObject_absent. discriminate.
  - apply headersToObject_absent. intros entries [= <-].
    apply (bool_decide_unpack _). vm_compute. exact I.
Defined.

(** ** [determineBodyPromise] *)

(** X3. When the body is JSON, the promise resolves to the parsed value and
    nothing is logged beyond what the parser did. *)
Theorem determineBodyPromise_parsed JSON_parse response requestData st s v st' :
  text response = Val s →
  JSON_parse s st = (Val v, st') →
  determineBodyPromise JSON_parse response requestData st = (Val v, st').
Proof.
  intros Htext Hparse. unfold determineBodyPromise.
  rewrite run_bind, Htext. unfold try_catch. rewrite Hparse. reflexivity.
Qed.

Lemma determineBodyPromise_parsed_witness :
  determineBodyPromise sample_JSON_parse (sample_response 200 "{}")
    {| rd_url := "/widgets"; rd_method := "GET" |} (State [] [])
  = (Val (VRef 0), State [∅] []).
Proof.
  apply (determineBodyPromise_parsed sample_JSON_parse (sample_response 200 "{}")
           {| rd_url := "/widgets"; rd_method := "GET" |} (State [] []) "{}");
    reflexivity.
Defined.

(** X4. When reading the body fails, the promise rejects with that error;
    the parser is not run and nothing is logged. *)
Theorem determineBodyPromise_text_rejects JSON_parse response requestData st e :
  text response = Exn e →
  determineBodyPromise JSON_parse response requestData st = (Exn e, st).
Proof.
  intros Htext. unfold determineBodyPromise. rewrite run_bind, Htext. reflexivity.
Qed.

Lemma determineBodyPromise_text_rejects_witness :
  determineBodyPromise sample_JSON_parse
    {| status := 200; ok := true; statusText := "OK"; headers := None;
       text := Exn (VErr TypeError "body stream already read") |}
    {| rd_url := "/widgets"; rd_method := "GET" |} (State [] [])
  = (Exn (VErr TypeError "body stream already read"), State [] []).
Proof.
  apply (determineBodyPromise_text_rejects sample_JSON_parse
           {| status := 200; ok := true; statusText := "OK"; headers := None;
              text := Exn (VErr TypeError "body stream already read") |}).
  reflexivity.
Defined.

(** X5. The promise rejects in two cases only: reading the body failed, or
    the parser threw an error that is not a SyntaxError.  A SyntaxError
    never rejects it. *)
Theorem determineBodyPromise_rejects_only JSON_parse response requestData st e st' :
  determineBodyPromise JSON_parse response requestData st = (Exn e, st') →
  text response = Exn e
  ∨ ∃ s, text response = Val s ∧ JSON_parse s st = (Exn e, st')
         ∧ instanceof_SyntaxError e = false.
Proof.
  unfold determineBodyPromise. rewrite run_bind.
  destruct (text response) as [s|e'|]; [|intros [= -> _]; by left|done].
  unfold try_catch.
  destruct (JSON_parse s st) as [[v|e'|] st1] eqn:Hparse; [done| |done].
  destruct (instanceof_SyntaxError e') eqn:Hsyn; simpl.
  - destruct (ok response && _); [done|]. rewrite run_bind. done.
  - intros [= -> ->]. right. by exists s.
Qed.

Lemma determineBodyPromise_rejects_only_witness :
  text (sample_response 200 "<html>") = Exn (VErr RangeError "Maximum call stack size exceeded")
  ∨ ∃ s, text (sample_response 200 "<html>") = Val s
         ∧ failing_JSON_parse s (State [] [])
           = (Exn (VErr RangeError "Maximum call stack size exceeded"), State [] [])
         ∧ instanceof_SyntaxError (VErr RangeError "Maximum call stack size exceeded") = false.
Proof.
  apply (determineBodyPromise_rejects_only failing_JSON_parse (sample_response 200 "<html>")
           {| rd_url := "/widgets"; rd_method := "GET" |}).
  reflexivity.
Defined.

(** ** [ajax], [ajaxSuccess] and [ajaxError] *)

(** X6. A failure of the transport rejects [ajax] with the error of the
    transport as it is; the body is not read and no hook of the adapter
    runs. *)
Theorem ajax_transport_failure JSON_parse JSON_stringify serializeQueryParams fetch
    adapter url type options st hash st1 e st2 :
  ajaxOptions JSON_stringify serializeQueryParams adapter url type options st
    = (Val hash, st1) →
  _ajaxRequest fetch hash st1 = (Exn e, st2) →
  ajax JSON_parse JSON_stringify serializeQueryParams fetch adapter url type options st
  = (Exn e, st2).
Proof.
  intros Hopts Hreq. unfold ajax.
  rewrite (run_bind_val _ _ _ _ _ Hopts).
  rewrite run_bind. unfold try_catch at 1. rewrite Hreq. reflexivity.
Qed.

Lemma ajax_transport_failure_witness :
  fst (ajax sample_JSON_parse sample_JSON_stringify sample_serializeQueryParams
         (λ _ _, throw (VErr TypeError "Failed to fetch")) (sample_adapter VUndef)
         "/widgets" "GET" None (State [] []))
  = Exn (VErr TypeError "Failed to fetch").
Proof.
  set (st1 := snd (ajaxOptions sample_JSON_stringify sample_serializeQueryParams
                     (sample_adapter VUndef) "/widgets" "GET" None (State [] []))).
  rewrite (ajax_transport_failure sample_JSON_parse sample_JSON_stringify
             sample_serializeQueryParams (λ _ _, throw (VErr TypeError "Failed to fetch"))
             (sample_adapter VUndef) "/widgets" "GET" None (State [] []) 2 st1
             (VErr TypeError "Failed to fetch") st1);
    vm_compute; reflexivity.
Defined.

(** X7. A failure to decode the body rejects [ajax] with that error;
    neither [ajaxSuccess] nor [ajaxError] runs, whatever the status. *)
Theorem ajax_body_failure JSON_parse JSON_stringify serializeQueryParams fetch
    adapter url type options st hash st1 response st2 e st3 :
  ajaxOptions JSON_stringify serializeQueryParams adapter url type options st
    = (Val hash, st1) →
  _ajaxRequest fetch hash st1 = (Val response, st2) →
  determineBodyPromise JSON_parse response {| rd_url := url; rd_method := type |} st2
    = (Exn e, st3) →
  ajax JSON_parse JSON_stringify serializeQueryParams fetch adapter url type options st
  = (Exn e, st3).
Proof.
  intros Hopts Hreq Hbody. unfold ajax.
  rewrite (run_bind_val _ _ _ _ _ Hopts).
  rewrite run_bind. unfold try_catch at 1. rewrite Hreq.
  rewrite run_bind, Hbody. reflexivity.
Qed.

Lemma ajax_body_failure_witness :
  fst (ajax failing_JSON_parse sample_JSON_stringify sample_serializeQueryParams
         (fetch_returning (sample_response 500 "<html>")) (sample_adapter VUndef)
         "/widgets" "GET" None (State [] []))
  = Exn (VErr RangeError "Maximum call stack size exceeded").
Proof.
  set (st1 := snd (ajaxOptions sample_JSON_stringify sample_serializeQueryParams
                     (sample_adapter VUndef) "/widgets" "GET" None (State [] []))).
  rewrite (ajax_body_failure failing_JSON_parse sample_JSON_stringify
             sample_serializeQueryParams (fetch_returning (sample_response 500 "<html>"))
             (sample_adapter VUndef) "/widgets" "GET" None (State [] []) 2 st1
             (sample_response 500 "<html>") st1
             (VErr RangeError "Maximum call stack size exceeded") st1);
    vm_compute; reflexivity.
Defined.

(** X8. [ajax] resolves only when the transport returned a response that
    is ok and [ajaxSuccess] resolved: a response that is not ok never
    resolves it. *)
Theorem ajax_resolves_only_ok JSON_parse JSON_stringify serializeQueryParams fetch
    adapter url type options st v st' :
  ajax JSON_parse JSON_stringify serializeQueryParams fetch adapter url type options st
    = (Val v, st') →
  ∃ hash st1 response st2 payload st3,
    ajaxOptions JSON_stringify serializeQueryParams adapter url type options st
      = (Val hash, st1)
    ∧ _ajaxRequest fetch hash st1 = (Val response, st2)
    ∧ determineBodyPromise JSON_parse response {| rd_url := url; rd_method := type |} st2
      = (Val payload, st3)
    ∧ ok response = true
    ∧ ajaxSuccess adapter response (or_else payload (VStr ""))
        {| rd_url := url; rd_method := type |} st3 = (Val v, st').
Proof.
  unfold ajax. rewrite run_bind.
  destruct (ajaxOptions _ _ _ _ _ _ _) as [[hash|e|] st1] eqn:Hopts; [|done..].
  rewrite run_bind. unfold try_catch at 1.
  destruct (_ajaxRequest fetch hash st1) as [[response|e|] st2] eqn:Hreq; [|done..].
  rewrite run_bind.
  destruct (determineBodyPromise _ _ _ _) as [[payload|e|] st3] eqn:Hbody; [|done..].
  destruct (ok response) eqn:Hok.
  - intros Hsuccess. by exists hash, st1, response, st2, payload, st3.
  - rewrite run_bind. destruct (ajaxError _ _ _ _ _ _) as [[failure|e|] st4]; done.
Qed.

Lemma ajax_resolves_only_ok_witness :
  ∃ hash st1 response st2 payload st3,
    ajaxOptions sample_JSON_stringify sample_serializeQueryParams (sample_adapter VUndef)
      "/widgets" "GET" None (State [] []) = (Val hash, st1)
    ∧ _ajaxRequest (fetch_returning (sample_response 200 "{}")) hash st1
      = (Val response, st2)
    ∧ determineBodyPromise sample_JSON_parse response
        {| rd_url := "/widgets"; rd_method := "GET" |} st2 = (Val payload, st3)
    ∧ ok response = true
    ∧ fst (ajaxSuccess (sample_adapter VUndef) response (or_else payload (VStr ""))
             {| rd_url := "/widgets"; rd_method := "GET" |} st3) = Val (VRef 3).
Proof.
  destruct (ajax_resolves_only_ok sample_JSON_parse sample_JSON_stringify
              sample_serializeQueryParams (fetch_returning (sample_response 200 "{}"))
              (sample_adapter VUndef) "/widgets" "GET" None (State [] []) (VRef 3)
              (snd (ajax sample_JSON_parse sample_JSON_stringify
                      sample_serializeQueryParams
                      (fetch_returning (sample_response 200 "{}"))
                      (sample_adapter VUndef) "/widgets" "GET" None (State [] []))))
    as (hash & st1 & response & st2 & payload & st3 & H1 & H2 & H3 & H4 & H5);
    [vm_compute; reflexivity|].
  exists hash, st1, response, st2, payload, st3.
  split_and!; [done..|]. by rewrite H5.
Defined.

Lemma ajaxSuccess_unflagged adapter response payload requestData st v st' :
  handleResponse adapter (status response) (headersToObject (headers response))
    payload requestData st = (Val v, st') →
  isAdapterError st' v = false →
  (∀ l, v = VRef l → is_Some (heap st' !! l)) →
  ajaxSuccess adapter response payload requestData st = (Val v, st').
Proof.
  intros Hhook Hflag Hobject. unfold ajaxSuccess.
  rewrite (run_bind_val _ _ _ _ _ Hhook).
  destruct (truthy v) eqn:Htruthy; [|reflexivity].
  rewrite run_bind.
  destruct v as [| | | | |l|]; simpl in *; try reflexivity; try discriminate.
  destruct (Hobject l eq_refl) as [o Ho]. unfold field in Hflag. rewrite Ho in Hflag.
  simpl in Hflag. unfold get, read_obj. rewrite run_bind, Ho, run_ret, Hflag. reflexivity.
Qed.

(** X9. When [handleResponse] returns a value that does not carry the
    [isAdapterError] flag (a falsy value, a primitive, or an object whose
    flag is falsy), [ajaxSuccess] resolves to that value; and so does [ajax]
    when the response is ok. *)
Theorem ajaxSuccess_resolves JSON_parse JSON_stringify serializeQueryParams fetch
    adapter url type options response payload :
  (∀ requestData st v st',
     handleResponse adapter (status response) (headersToObject (headers response))
       payload requestData st = (Val v, st') →
     isAdapterError st' v = false →
     (∀ l, v = VRef l → is_Some (heap st' !! l)) →
     ajaxSuccess adapter response payload requestData st = (Val v, st'))
  ∧ (∀ st hash st1 st2 st3 v st4,
       ajaxOptions JSON_stringify serializeQueryParams adapter url type options st
         = (Val hash, st1) →
       _ajaxRequest fetch hash st1 = (Val response, st2) →
       determineBodyPromise JSON_parse response {| rd_url := url; rd_method := type |} st2
         = (Val payload, st3) →
       ok response = true →
       handleResponse adapter (status response) (headersToObject (headers response))
         (or_else payload (VStr "")) {| rd_url := url; rd_method := type |} st3
         = (Val v, st4) →
       isAdapterError st4 v = false →
       (∀ l, v = VRef l → is_Some (heap st4 !! l)) →
       ajax JSON_parse JSON_stringify serializeQueryParams fetch adapter url type options st
         = (Val v, st4)).
Proof.
  split.
  - intros requestData st v st'. apply ajaxSuccess_unflagged.
  - intros st hash st1 st2 st3 v st4 Hopts Hreq Hbody Hok Hhook Hflag Hobject.
    rewrite (ajax_classifies _ _ _ _ _ _ _ _ _ _ _ _ _ _ _ Hopts Hreq Hbody), Hok.
    by apply ajaxSuccess_unflagged.
Qed.

Lemma ajaxSuccess_resolves_witness :
  fst (ajax sample_JSON_parse sample_JSON_stringify sample_serializeQueryParams
         (fetch_returning (sample_response 200 "true")) (sample_adapter VUndef)
         "/widgets" "GET" None (State [] []))
  = Val (VBool true).
Proof.
  set (response := sample_response 200 "true").
  set (st1 := snd (ajaxOptions sample_JSON_stringify sample_serializeQueryParams
                     (sample_adapter VUndef) "/widgets" "GET" None (State [] []))).
  rewrite (proj2 (ajaxSuccess_resolves sample_JSON_parse sample_JSON_stringify
                    sample_serializeQueryParams (fetch_returning response)
                    (sample_adapter VUndef) "/widgets" "GET" None response (VBool true))
             (State [] []) 2 st1 st1 st1 (VBool true) st1);
    try (vm_compute; reflexivity).
  discriminate.
Defined.

(** X10. On a response that is not ok, [ajax] asks [parseErrorResponse]
    about the payload, or about the status text when the payload is falsy,
    gives [handleResponse] what that returns, or the payload as it is when
    that is falsy, and rejects with the value that [handleResponse]
    returns. *)
Theorem ajax_failure_rejects JSON_parse JSON_stringify serializeQueryParams fetch
    adapter url type options st hash st1 response st2 payload st3 parsed st4 v st5 :
  ajaxOptions JSON_stringify serializeQueryParams adapter url type options st
    = (Val hash, st1) →
  _ajaxRequest fetch hash st1 = (Val response, st2) →
  determineBodyPromise JSON_parse response {| rd_url := url; rd_method := type |} st2
    = (Val payload, st3) →
  ok response = false →
  parseErrorResponse adapter (or_else payload (VStr (statusText response))) st3
    = (Val parsed, st4) →
  handleResponse adapter (status response) (headersToObject (headers response))
    (or_else parsed payload) {| rd_url := url; rd_method := type |} st4 = (Val v, st5) →
  ajax JSON_parse JSON_stringify serializeQueryParams fetch adapter url type options st
  = (Exn v, st5).
Proof.
  intros Hopts Hreq Hbody Hok Hparse Hhook.
  rewrite (ajax_classifies _ _ _ _ _ _ _ _ _ _ _ _ _ _ _ Hopts Hreq Hbody), Hok.
  rewrite run_bind. unfold ajaxError. cbn [truthy].
  unfold parseFetchResponseForError. rewrite run_bind, Hparse, Hhook. reflexivity.
Qed.

Lemma ajax_failure_rejects_witness :
  fst (ajax sample_JSON_parse sample_JSON_stringify sample_serializeQueryParams
         (fetch_returning (sample_response 404 "")) (sample_adapter VUndef)
         "/widgets/9" "GET" None (State [] []))
  = Exn (VRef 3).
Proof.
  set (response := sample_response 404 "").
  set (requestData := {| rd_url := "/widgets/9"; rd_method := "GET" |}).
  set (st1 := snd (ajaxOptions sample_JSON_stringify sample_serializeQueryParams
                     (sample_adapter VUndef) "/widgets/9" "GET" None (State [] []))).
  set (st3 := snd (determineBodyPromise sample_JSON_parse response requestData st1)).
  set (st5 := snd (handleResponse (sample_adapter VUndef) 404
                     (headersToObject (headers response)) (VStr "") requestData st3)).
  rewrite (ajax_failure_rejects sample_JSON_parse sample_JSON_stringify
             sample_serializeQueryParams (fetch_returning response)
             (sample_adapter VUndef) "/widgets/9" "GET" None (State [] []) 2 st1
             response st1 (VStr "") st3 (VStr "") st3 (VRef 3) st5);
    vm_compute; reflexivity.
Defined.

(** ** [mungOptionsForFetch]: the fields of the descriptor *)

Section Descriptor.

Variable JSON_stringify : list obj → value → outcome value.
Variable serializeQueryParams : list obj → value → outcome string.

Lemma lookup_copy_credentials (o : obj) :
  (o ∪ {["credentials" := VStr "same-origin"]}) !! "credentials"
  = Some (default (VStr "same-origin") (o !! "credentials")).
Proof.
  rewrite lookup_union. destruct (o !! "credentials"); by rewrite lookup_singleton_eq.
Qed.

Lemma headers_phase_credentials h c _options (o : obj) adapter l st1 :
  h !! _options = Some o → well_typed h o adapter →
  mungOptionsForFetch_headers _options adapter (State h c) = (Val l, st1) →
  field st1 l "credentials" = Some (default (VStr "same-origin") (o !! "credentials")).
Proof.
  intros Hbag [Hhs Hadapter] Hrun. pose proof (lookup_lt_Some _ _ _ Hbag).
  destruct Hadapter as [Hnone | (a & A & Ha & HA)].
  - rewrite (headers_phase_none h c _options o adapter Hbag) in Hrun by by rewrite Hnone.
    injection Hrun as <- <-. unfold field. cbn [heap]. heap_simpl. simpl.
    rewrite lookup_insert_ne by done. apply lookup_copy_credentials.
  - destruct Hhs as [Hundef | (cl & C & Hcl & HC)].
    + rewrite (headers_phase_fresh h c _options o adapter Hbag a A Ha HA) in Hrun
        by by rewrite Hundef.
      injection Hrun as <- <-. unfold field. cbn [heap].
      change (h ++ [?x; A]) with (h ++ [x] ++ [A]). rewrite app_assoc. heap_simpl. simpl.
      rewrite !lookup_insert_ne by done. apply lookup_copy_credentials.
    + pose proof (lookup_lt_Some _ _ _ HC).
      destruct (o !! "headers") as [v|] eqn:Hv; simpl in Hcl; [subst v|done].
      rewrite (headers_phase_supplied h c _options o adapter Hbag a A cl C Ha HA Hv HC)
        in Hrun.
      injection Hrun as <- <-. unfold field. cbn [heap]. heap_simpl. simpl.
      rewrite !lookup_insert_ne by done. apply lookup_copy_credentials.
Qed.

(** The second and the third step leave every field of the descriptor but
    [url], [body] and [headers] as the first step made it. *)
Lemma mungOptionsForFetch_later h c _options (o : obj) adapter st1 r st' k :
  h !! _options = Some o → well_typed h o adapter →
  mungOptionsForFetch_headers _options adapter (State h c) = (Val (length h), st1) →
  mungOptionsForFetch JSON_stringify serializeQueryParams _options adapter (State h c)
    = (r, st') →
  k ≠ "headers" → k ≠ "url" → k ≠ "body" →
  field st' (length h) k = field st1 (length h) k.
Proof.
  intros Hbag Htyped Hrun1' Hrun Hk1 Hk2 Hk3.
  destruct (headers_phase h c _options o adapter Hbag Htyped)
    as (h1 & o1 & Hrun1 & Hdesc1 & Hlen1 & Hkeep1 & Hmethod1 & Hhs1 & Hframe1).
  rewrite Hrun1 in Hrun1'. injection Hrun1' as <-.
  revert Hrun. unfold mungOptionsForFetch. mrun. rewrite Hrun1. mrun.
  destruct (mungOptionsForFetch_data _ _ _ _) as [r2 st2] eqn:Hrun2.
  destruct (data_phase_any _ _ _ _ _ _ Hdesc1 _ _ Hrun2) as (o2 & -> & Hkeep2 & _).
  assert (<[length h := o2]> h1 !! length h = Some o2) as Hdesc2 by by heap_simpl.
  assert (field (State (<[length h := o2]> h1) c) (length h) k
          = field (State h1 c) (length h) k) as Hfield2.
  { unfold field. cbn [heap]. rewrite Hdesc2, Hdesc1. simpl. by apply Hkeep2. }
  destruct r2 as [[]|e|]; [|by intros [= <- <-]..].
  mrun.
  destruct (contentType_phase (<[length h := o2]> h1) c (length h) o2 Hdesc2)
    as (h3 & o3 & Hrun3 & Hdesc3 & Hlen3 & Hkeep3 & Hframe3).
  { rewrite (Hkeep2 "headers") by done.
    destruct Hhs1 as [?|(t & hs & Ht & Hhs & Hne & _)]; [by left|right].
    exists t, hs. split_and!; [done | by heap_simpl | done]. }
  rewrite Hrun3. mrun. rewrite run_ret. intros [= <- <-].
  rewrite <- Hfield2. unfold field. cbn [heap]. rewrite Hdesc3, Hdesc2. simpl.
  by apply Hkeep3.
Qed.

(** X11. The descriptor has the [credentials] of the caller's bag, and
    ['same-origin'] when the bag has none: the caller wins over the
    default. *)
Theorem mungOptionsForFetch_credentials h c _options (o : obj) adapter r st' :
  h !! _options = Some o → well_typed h o adapter →
  mungOptionsForFetch JSON_stringify serializeQueryParams _options adapter (State h c)
    = (r, st') →
  field st' (length h) "credentials"
  = Some (default (VStr "same-origin") (o !! "credentials")).
Proof.
  intros Hbag Htyped Hrun.
  destruct (headers_phase h c _options o adapter Hbag Htyped) as (h1 & o1 & Hrun1 & _).
  rewrite (mungOptionsForFetch_later h c _options o adapter _ r st' "credentials"
             Hbag Htyped Hrun1 Hrun) by done.
  by eapply headers_phase_credentials.
Qed.


(** X13. [mungOptionsForFetch] writes into no object of the caller but the
    headers object of the bag: the bag itself and every other object are as
    they were, nothing is logged, and the descriptor it returns is a new
    object. *)
Theorem mungOptionsForFetch_frame h c _options (o : obj) adapter r st' :
  h !! _options = Some o → well_typed h o adapter →
  o !! "headers" ≠ Some (VRef _options) →
  mungOptionsForFetch JSON_stringify serializeQueryParams _options adapter (State h c)
    = (r, st') →
  heap st' !! _options = Some o
  ∧ (∀ l, l < length h → o !! "headers" ≠ Some (VRef l) → heap st' !! l = h !! l)
  ∧ console st' = c
  ∧ ∀ l, r = Val l → h !! l = None ∧ is_Some (heap st' !! l).
Proof.
  intros Hbag Htyped Hself Hrun. pose proof (lookup_lt_Some _ _ _ Hbag).
  destruct (mungOptionsForFetch_any _ _ _ _ _ _ _ _ _ Hbag Htyped Hrun)
    as (o' & Hdesc & Hconsole & _ & Hres & _ & _ & _ & _ & _ & Hframe).
  split_and!; [by rewrite Hframe | done | done |].
  intros l ->. rewrite (Hres l eq_refl).
  split; [by apply lookup_ge_None_2 | by eexists].
Qed.

(** X14. For a method other than GET and HEAD, a truthy payload goes to
    the body as [JSON.stringify] encodes it, whether it has keys or not, and
    the url is the one of the bag. *)
Theorem mungOptionsForFetch_json_body h c _options (o : obj) adapter st1 data b :
  h !! _options = Some o → well_typed h o adapter →
  bodyless (resolved_method o) = false →
  mungOptionsForFetch_headers _options adapter (State h c) = (Val (length h), st1) →
  o !! "data" = Some data → truthy data = true →
  JSON_stringify (heap st1) data = Val b →
  ∃ st',
    mungOptionsForFetch JSON_stringify serializeQueryParams _options adapter (State h c)
      = (Val (length h), st')
    ∧ field st' (length h) "body" = Some b
    ∧ field st' (length h) "url" = o !! "url".
Proof.
  intros Hbag Htyped Hmethod Hrun1' Hdata Htruthy Hb.
  destruct (headers_phase h c _options o adapter Hbag Htyped)
    as (h1 & o1 & Hrun1 & Hdesc1 & Hlen1 & Hkeep1 & Hmethod1 & Hhs1 & Hframe1).
  pose proof Hrun1' as Hst1. rewrite Hrun1 in Hst1. injection Hst1 as <-.
  cbn [heap] in Hb.
  assert (o1 !! "data" = Some data) as Hdata1 by (rewrite Hkeep1 by done; done).
  pose proof (data_phase_body JSON_stringify serializeQueryParams h1 c (length h) o1
                Hdesc1 b) as Hrun2.
  rewrite Hdata1, Hmethod1 in Hrun2. cbn [default from_option id] in Hrun2.
  specialize (Hrun2 Htruthy Hmethod Hb).
  destruct (mungOptionsForFetch_returns JSON_stringify serializeQueryParams
              h c _options o adapter _ _ Hbag Htyped Hrun1' Hrun2) as (st' & Hrun & Hfields).
  exists st'. split; [done|]. rewrite !Hfields by done.
  unfold field. cbn [heap]. rewrite list_lookup_insert_eq by lia. simpl.
  rewrite lookup_insert_eq, lookup_insert_ne by done. split; [done|]. by apply Hkeep1.
Qed.

End Descriptor.

(** ** [mungOptionsForFetch]: errors and what is left alone *)

Section Errors.

Variable JSON_stringify : list obj → value → outcome value.
Variable serializeQueryParams : list obj → value → outcome string.

Lemma mungOptionsForFetch_data_fails _options adapter st l st1 e st2 :
  mungOptionsForFetch_headers _options adapter st = (Val l, st1) →
  mungOptionsForFetch_data JSON_stringify serializeQueryParams l st1 = (Exn e, st2) →
  mungOptionsForFetch JSON_stringify serializeQueryParams _options adapter st = (Exn e, st2).
Proof.
  intros Hrun1 Hrun2. unfold mungOptionsForFetch. mrun. rewrite Hrun1. mrun.
  rewrite Hrun2. reflexivity.
Qed.

(** X15. An error that [JSON.stringify] or [serializeQueryParams] throws
    is the error that [mungOptionsForFetch] throws, and the descriptor is
    left as the first step made it. *)
Theorem mungOptionsForFetch_propagates h c _options (o : obj) adapter st1 data e :
  h !! _options = Some o → well_typed h o adapter →
  mungOptionsForFetch_headers _options adapter (State h c) = (Val (length h), st1) →
  o !! "data" = Some data → truthy data = true →
  (bodyless (resolved_method o) = false →
   JSON_stringify (heap st1) data = Exn e →
   mungOptionsForFetch JSON_stringify serializeQueryParams _options adapter (State h c)
   = (Exn e, st1))
  ∧ (bodyless (resolved_method o) = true →
     ∀ n u, Object_keys_length data st1 = (Val n, st1) → n ≠ 0 →
            o !! "url" = Some (VStr u) →
            serializeQueryParams (heap st1) data = Exn e →
            mungOptionsForFetch JSON_stringify serializeQueryParams _options adapter
              (State h c)
            = (Exn e, st1)).
Proof.
  intros Hbag Htyped Hrun1' Hdata Htruthy.
  destruct (headers_phase h c _options o adapter Hbag Htyped)
    as (h1 & o1 & Hrun1 & Hdesc1 & Hlen1 & Hkeep1 & Hmethod1 & Hhs1 & Hframe1).
  pose proof Hrun1' as Hst1. rewrite Hrun1 in Hst1. injection Hst1 as <-.
  cbn [heap].
  assert (o1 !! "data" = Some data) as Hdata1 by (rewrite Hkeep1 by done; done).
  split.
  - intros Hmethod Hthrows. apply (mungOptionsForFetch_data_fails _ _ _ _ _ _ _ Hrun1).
    unfold mungOptionsForFetch_data.
    mrun. rewrite (get_run _ _ _ _ o1) by done. rewrite Hdata1.
    cbn [default from_option id]. rewrite Htruthy.
    mrun. rewrite (get_run _ _ _ _ o1) by done. rewrite Hmethod1.
    cbn [default from_option id].
    change (is_string ?m "GET" || is_string ?m "HEAD") with (bodyless m).
    rewrite Hmethod. mrun. unfold reading at 1. cbn [heap]. rewrite Hthrows. reflexivity.
  - intros Hmethod n u Hkeys Hn Hurl Hthrows.
    apply (mungOptionsForFetch_data_fails _ _ _ _ _ _ _ Hrun1).
    unfold mungOptionsForFetch_data.
    mrun. rewrite (get_run _ _ _ _ o1) by done. rewrite Hdata1.
    cbn [default from_option id]. rewrite Htruthy.
    mrun. rewrite (get_run _ _ _ _ o1) by done. rewrite Hmethod1.
    cbn [default from_option id].
    change (is_string ?m "GET" || is_string ?m "HEAD") with (bodyless m).
    rewrite Hmethod. mrun. rewrite Hkeys. destruct (decide (n = 0)) as [|_]; [done|].
    mrun. rewrite (get_run _ _ _ _ o1) by done. rewrite (Hkeep1 "url"), Hurl by done.
    cbn [default from_option id]. mrun. unfold reading at 1. cbn [heap].
    rewrite Hthrows. reflexivity.
Qed.

(** X16. For GET and HEAD with a truthy payload that has keys, a bag whose
    [url] is missing, or is neither a string nor an object, makes
    [mungOptionsForFetch] throw a TypeError. *)
Theorem mungOptionsForFetch_url_missing h c _options (o : obj) adapter st1 data n :
  h !! _options = Some o → well_typed h o adapter →
  bodyless (resolved_method o) = true →
  mungOptionsForFetch_headers _options adapter (State h c) = (Val (length h), st1) →
  o !! "data" = Some data → truthy data = true →
  Object_keys_length data st1 = (Val n, st1) → n ≠ 0 →
  (∀ u, default VUndef (o !! "url") ≠ VStr u) →
  (∀ l, default VUndef (o !! "url") ≠ VRef l) →
  ∃ msg,
    mungOptionsForFetch JSON_stringify serializeQueryParams _options adapter (State h c)
    = (Exn (VErr TypeError msg), st1).
Proof.
  intros Hbag Htyped Hmethod Hrun1' Hdata Htruthy Hkeys Hn Hstr Href.
  destruct (headers_phase h c _options o adapter Hbag Htyped)
    as (h1 & o1 & Hrun1 & Hdesc1 & Hlen1 & Hkeep1 & Hmethod1 & Hhs1 & Hframe1).
  pose proof Hrun1' as Hst1. rewrite Hrun1 in Hst1. injection Hst1 as <-.
  assert (o1 !! "data" = Some data) as Hdata1 by (rewrite Hkeep1 by done; done).
  eexists. apply (mungOptionsForFetch_data_fails _ _ _ _ _ _ _ Hrun1).
  unfold mungOptionsForFetch_data.
  mrun. rewrite (get_run _ _ _ _ o1) by done. rewrite Hdata1.
  cbn [default from_option id]. rewrite Htruthy.
  mrun. rewrite (get_run _ _ _ _ o1) by done. rewrite Hmethod1.
  cbn [default from_option id].
  change (is_string ?m "GET" || is_string ?m "HEAD") with (bodyless m).
  rewrite Hmethod. mrun. rewrite Hkeys. destruct (decide (n = 0)) as [|_]; [done|].
  mrun. rewrite (get_run _ _ _ _ o1) by done. rewrite (Hkeep1 "url") by done.
  destruct (default VUndef (o !! "url")) as [| | | |u|l|] eqn:Hurl;
    try reflexivity; [by destruct (Hstr u) | by destruct (Href l)].
Qed.

(** X17. [headers: null] is not [undefined]: for a method other than GET,
    with a truthy body and without adapter headers to replace the null,
    the test of line 77 reads a property of null and [mungOptionsForFetch]
    throws a TypeError. *)
Theorem mungOptionsForFetch_null_headers _options adapter st l st1 h2 c (o2 : obj) :
  mungOptionsForFetch_headers _options adapter st = (Val l, st1) →
  mungOptionsForFetch_data JSON_stringify serializeQueryParams l st1 = (Val tt, State h2 c) →
  h2 !! l = Some o2 →
  is_string (default VUndef (o2 !! "method")) "GET" = false →
  truthy (default VUndef (o2 !! "body")) = true →
  o2 !! "headers" = Some VNull →
  ∃ msg,
    mungOptionsForFetch JSON_stringify serializeQueryParams _options adapter st
    = (Exn (VErr TypeError msg), State h2 c).
Proof.
  intros Hrun1 Hrun2 Hdesc Hmethod Hbody Hnull. eexists.
  unfold mungOptionsForFetch. mrun. rewrite Hrun1. mrun. rewrite Hrun2. mrun.
  unfold mungOptionsForFetch_contentType, wants_default_contentType.
  mrun. rewrite (get_run _ _ _ _ o2) by done.
  mrun. rewrite (get_run _ _ _ _ o2) by done. rewrite Hmethod, Hbody. cbn [negb andb].
  mrun. rewrite (get_run _ _ _ _ o2) by done. rewrite Hnull. cbn [default from_option id].
  destruct (decide (VNull = VUndef)); [done|]. reflexivity.
Qed.

Lemma contentType_phase_skip h c options (o : obj) :
  h !! options = Some o →
  is_string (default VUndef (o !! "method")) "GET" = true
  ∨ truthy (default VUndef (o !! "body")) = false →
  mungOptionsForFetch_contentType options (State h c) = (Val tt, State h c).
Proof.
  intros Hdesc Hskip.
  unfold mungOptionsForFetch_contentType, wants_default_contentType.
  mrun. rewrite (get_run _ _ _ _ o) by done.
  mrun. rewrite (get_run _ _ _ _ o) by done.
  assert (negb (is_string (default VUndef (o !! "method")) "GET")
          && truthy (default VUndef (o !! "body")) = false) as ->.
  { destruct Hskip as [-> | ->]; [done | apply andb_false_r]. }
  reflexivity.
Qed.

(** X18. For GET, and for any method when the descriptor has no truthy
    body after the second step, the third step does nothing: no
    [Content-Type] is added and no headers object is made. *)
Theorem mungOptionsForFetch_no_contentType _options adapter st l st1 h2 c (o2 : obj) :
  mungOptionsForFetch_headers _options adapter st = (Val l, st1) →
  mungOptionsForFetch_data JSON_stringify serializeQueryParams l st1 = (Val tt, State h2 c) →
  h2 !! l = Some o2 →
  is_string (default VUndef (o2 !! "method")) "GET" = true
  ∨ truthy (default VUndef (o2 !! "body")) = false →
  mungOptionsForFetch JSON_stringify serializeQueryParams _options adapter st
  = (Val l, State h2 c).
Proof.
  intros Hrun1 Hrun2 Hdesc Hskip.
  unfold mungOptionsForFetch. mrun. rewrite Hrun1. mrun. rewrite Hrun2. mrun.
  rewrite (contentType_phase_skip h2 c l o2 Hdesc Hskip). reflexivity.
Qed.


(** X20. For GET without adapter headers, [mungOptionsForFetch] changes
    no object that existed, the headers object of the caller included, and
    logs nothing, however it ends. *)
Theorem mungOptionsForFetch_get_pure h c _options (o : obj) adapter r st' :
  h !! _options = Some o →
  truthy (get_headers adapter) = false →
  is_string (resolved_method o) "GET" = true →
  mungOptionsForFetch JSON_stringify serializeQueryParams _options adapter (State h c)
    = (r, st') →
  unchanged (State h c) st' ∧ console st' = c.
Proof.
  intros Hbag Hadapter Hmethod.
  pose proof (headers_phase_none h c _options o adapter Hbag Hadapter) as Hrun1.
  set (o1 := <["method" := resolved_method o]>
               (o ∪ {["credentials" := VStr "same-origin"]})) in Hrun1.
  assert ((h ++ [o1]) !! length h = Some o1) as Hdesc1 by by heap_simpl.
  assert (∀ o2, unchanged (State h c) (State (<[length h := o2]> (h ++ [o1])) c)) as Hsame.
  { intros o2 l x Hl. pose proof (lookup_lt_Some _ _ _ Hl). cbn [heap] in *.
    by heap_simpl. }
  intros Hrun.
  destruct (mungOptionsForFetch_data JSON_stringify serializeQueryParams (length h)
              (State (h ++ [o1]) c)) as [r2 st2] eqn:Hrun2.
  destruct (data_phase_any _ _ _ _ _ _ Hdesc1 _ _ Hrun2) as (o2 & -> & Hkeep2 & _).
  destruct r2 as [[]|e|].
  - assert (<[length h := o2]> (h ++ [o1]) !! length h = Some o2) as Hdesc2
      by by heap_simpl.
    revert Hrun. unfold mungOptionsForFetch. mrun. rewrite Hrun1. mrun. rewrite Hrun2.
    mrun. rewrite (contentType_phase_skip _ c (length h) o2 Hdesc2).
    + intros [= <- <-]. split; [apply Hsame | done].
    + left. rewrite (Hkeep2 "method") by done. subst o1.
      by rewrite lookup_insert_eq.
  - rewrite (mungOptionsForFetch_data_fails _ _ _ _ _ _ _ Hrun1 Hrun2) in Hrun.
    injection Hrun as <- <-. split; [apply Hsame | done].
  - revert Hrun. unfold mungOptionsForFetch. mrun. rewrite Hrun1. mrun. rewrite Hrun2.
    intros [= <- <-]. split; [apply Hsame | done].
Qed.

End Errors.

(** ** [ajaxOptions]: the descriptor *)

Section AjaxOptions.

Variable JSON_stringify : list obj → value → outcome value.
Variable serializeQueryParams : list obj → value → outcome string.

(** [ajaxOptions] is [mungOptionsForFetch] on a copy of the bag, made after
    [url] and [type] were written into the bag. *)
Lemma ajaxOptions_run adapter url type h c b (o : obj) :
  h !! b = Some o →
  let bag := <["type" := VStr type]> (<["url" := VStr url]> o) in
  let copy := <["type" := VStr type]> (<["url" := VStr url]> bag) in
  ajaxOptions JSON_stringify serializeQueryParams adapter url type (Some b) (State h c)
  = mungOptionsForFetch JSON_stringify serializeQueryParams (length h) adapter
      (State (<[b := bag]> h ++ [copy]) c).
Proof.
  intros Hbag bag copy. pose proof (lookup_lt_Some _ _ _ Hbag).
  unfold ajaxOptions. mrun. rewrite run_ret. mrun.
  rewrite (set_run _ _ _ _ _ o) by done. mrun.
  rewrite (set_run _ _ _ _ _ (<["url" := VStr url]> o)) by by heap_simpl.
  mrun. heap_simpl. fold bag.
  unfold read_obj at 1. cbn [heap]. rewrite list_lookup_insert_eq by done.
  mrun. rewrite alloc_run, length_insert. reflexivity.
Qed.

Lemma ajaxOptions_well_typed adapter url type h b (o : obj) :
  h !! b = Some o → well_typed h o adapter →
  let bag := <["type" := VStr type]> (<["url" := VStr url]> o) in
  let copy := <["type" := VStr type]> (<["url" := VStr url]> bag) in
  well_typed (<[b := bag]> h ++ [copy]) copy adapter.
Proof.
  intros Hbag [Hhs Hadapter] bag copy.
  assert (∀ l, is_Some (h !! l) → is_Some ((<[b := bag]> h ++ [copy]) !! l)) as Hmono.
  { intros l Hl. apply lookup_lt_is_Some. apply lookup_lt_is_Some in Hl. len. }
  split; [|by eapply optional_object_mono].
  subst copy bag. rewrite !lookup_insert_ne by done. by eapply optional_object_mono.
Qed.

(** X21. The descriptor is made for the arguments of [ajaxOptions],
    whatever the bag says, and however [ajaxOptions] ends: its [type] is the
    argument; its method is the argument, or GET when the argument is the
    empty string; for a method other than GET and HEAD its url is the
    argument; its [credentials] are those of the bag, or ['same-origin']. *)
Theorem ajaxOptions_descriptor adapter url type h c b (o : obj) r st' :
  h !! b = Some o → well_typed h o adapter →
  ajaxOptions JSON_stringify serializeQueryParams adapter url type (Some b) (State h c)
    = (r, st') →
  let method := if String.eqb type "" then VStr "GET" else VStr type in
  field st' (S (length h)) "type" = Some (VStr type)
  ∧ field st' (S (length h)) "method" = Some method
  ∧ (bodyless method = false → field st' (S (length h)) "url" = Some (VStr url))
  ∧ field st' (S (length h)) "credentials"
    = Some (default (VStr "same-origin") (o !! "credentials")).
Proof.
  intros Hbag Htyped. rewrite (ajaxOptions_run adapter url type h c b o Hbag). cbv zeta.
  set (bag := <["type" := VStr type]> (<["url" := VStr url]> o)).
  set (copy := <["type" := VStr type]> (<["url" := VStr url]> bag)).
  set (hB := <[b := bag]> h ++ [copy]).
  pose proof (lookup_lt_Some _ _ _ Hbag).
  assert (length hB = S (length h)) as HlenB by (subst hB; len).
  assert (hB !! length h = Some copy) as HbagB by (subst hB; by heap_simpl).
  pose proof (ajaxOptions_well_typed adapter url type h b o Hbag Htyped) as HtypedB.
  cbv zeta in HtypedB. fold bag copy hB in HtypedB.
  assert (copy !! "type" = Some (VStr type)) as Htype
    by (subst copy; by rewrite lookup_insert_eq).
  assert (copy !! "url" = Some (VStr url)) as Hurl
    by (subst copy; by rewrite lookup_insert_ne, lookup_insert_eq).
  assert (copy !! "credentials" = o !! "credentials") as Hcred
    by (subst copy bag; by rewrite !lookup_insert_ne).
  assert (resolved_method copy = if String.eqb type "" then VStr "GET" else VStr type)
    as Hresolved.
  { unfold resolved_method, or_else. rewrite Htype. simpl. by destruct (String.eqb type ""). }
  intros Hrun.
  destruct (mungOptionsForFetch_any _ _ _ _ _ _ _ _ _ HbagB HtypedB Hrun)
    as (o' & Hdesc & _ & _ & _ & Hkeep & Hmethod & _ & Hurl' & _).
  rewrite HlenB in Hdesc. rewrite Hresolved in Hmethod, Hurl'.
  destruct (headers_phase hB c (length h) copy adapter HbagB HtypedB)
    as (h1 & o1 & Hrun1 & _).
  split_and!.
  - unfold field. rewrite Hdesc. simpl. by rewrite Hkeep.
  - unfold field. rewrite Hdesc. simpl. exact Hmethod.
  - intros Hbodyless. unfold field. rewrite Hdesc. simpl. by rewrite Hurl'.
  - rewrite <- HlenB.
    rewrite (mungOptionsForFetch_later _ _ hB c (length h) copy adapter _ r st'
               "credentials" HbagB HtypedB Hrun1 Hrun) by done.
    rewrite (headers_phase_credentials hB c (length h) copy adapter _ _
               HbagB HtypedB Hrun1).
    by rewrite Hcred.
Qed.

(** X22. Without options, [ajaxOptions] makes the bag itself and always
    returns: the descriptor has the url and the type of the arguments, the
    method resolved from the type, the default credentials, and neither data
    nor body. *)
Theorem ajaxOptions_without_options adapter url type h c :
  optional_object h (get_headers adapter) →
  ∃ st',
    ajaxOptions JSON_stringify serializeQueryParams adapter url type None (State h c)
      = (Val (S (S (length h))), st')
    ∧ field st' (S (S (length h))) "url" = Some (VStr url)
    ∧ field st' (S (S (length h))) "type" = Some (VStr type)
    ∧ field st' (S (S (length h))) "method"
      = Some (if String.eqb type "" then VStr "GET" else VStr type)
    ∧ field st' (S (S (length h))) "credentials" = Some (VStr "same-origin")
    ∧ field st' (S (S (length h))) "data" = None
    ∧ field st' (S (S (length h))) "body" = None.
Proof.
  intros Hadapter.
  assert (ajaxOptions JSON_stringify serializeQueryParams adapter url type None (State h c)
          = ajaxOptions JSON_stringify serializeQueryParams adapter url type
              (Some (length h)) (State (h ++ [∅]) c)) as ->.
  { unfold ajaxOptions. mrun. rewrite alloc_run, run_ret. reflexivity. }
  assert ((h ++ [∅]) !! length h = Some (∅ : obj)) as Hbag by by heap_simpl.
  rewrite (ajaxOptions_run adapter url type (h ++ [∅]) c (length h) ∅ Hbag). cbv zeta.
  set (bag := <["type" := VStr type]> (<["url" := VStr url]> (∅ : obj))).
  set (copy := <["type" := VStr type]> (<["url" := VStr url]> bag)).
  set (hB := <[length h := bag]> (h ++ [∅]) ++ [copy]).
  assert (length (h ++ [∅]) = S (length h)) as Hlen by len.
  assert (length hB = S (S (length h))) as HlenB by (subst hB; len).
  assert (hB !! S (length h) = Some copy) as HbagB by (subst hB; by heap_simpl).
  assert (well_typed (h ++ [∅]) (∅ : obj) adapter) as Htyped0.
  { split; [by left|]. eapply optional_object_mono; [|done].
    intros l Hl. apply lookup_lt_is_Some. apply lookup_lt_is_Some in Hl. len. }
  pose proof (ajaxOptions_well_typed adapter url type (h ++ [∅]) (length h) ∅ Hbag Htyped0)
    as HtypedB.
  cbv zeta in HtypedB. fold bag copy hB in HtypedB.
  rewrite Hlen. rewrite <- HlenB.
  assert (hB !! S (length h) = Some copy) as HbagB' by done.
  assert (∀ k, k ≠ "type" → k ≠ "url" → copy !! k = None) as Hnone.
  { intros k ? ?. subst copy bag. by rewrite !lookup_insert_ne, lookup_empty. }
  destruct (headers_phase hB c (S (length h)) copy adapter HbagB HtypedB)
    as (h1 & o1 & Hrun1 & Hdesc1 & Hlen1 & Hkeep1 & Hmethod1 & Hhs1 & Hframe1).
  assert (mungOptionsForFetch_data JSON_stringify serializeQueryParams (length hB)
            (State h1 c) = (Val tt, State h1 c)) as Hrun2.
  { apply (data_phase_absent _ _ h1 c (length hB) o1 Hdesc1).
    rewrite (Hkeep1 "data"), Hnone by done. done. }
  destruct (mungOptionsForFetch_returns JSON_stringify serializeQueryParams
              hB c (S (length h)) copy adapter _ _ HbagB HtypedB Hrun1 Hrun2)
    as (st' & Hrun & Hfields).
  exists st'. split; [exact Hrun|]. rewrite !Hfields by done.
  unfold field at 1 2 3 5 6. cbn [heap]. rewrite Hdesc1. simpl.
  split_and!.
  - rewrite Hkeep1 by done. subst copy. by rewrite lookup_insert_ne, lookup_insert_eq.
  - rewrite Hkeep1 by done. subst copy. by rewrite lookup_insert_eq.
  - rewrite Hmethod1. unfold resolved_method, or_else. subst copy.
    rewrite lookup_insert_eq. simpl. by destruct (String.eqb type "").
  - rewrite (headers_phase_credentials hB c (S (length h)) copy adapter _ _
               HbagB HtypedB Hrun1).
    by rewrite Hnone.
  - rewrite Hkeep1 by done. by apply Hnone.
  - rewrite Hkeep1 by done. by apply Hnone.
Qed.

End AjaxOptions.

(** ** The further properties on the sample collaborators *)

Lemma mungOptionsForFetch_credentials_witness :
  field (snd (mungOptionsForFetch sample_JSON_stringify sample_serializeQueryParams 0
                (sample_adapter VUndef)
                (State [ {["url" := VStr "/widgets"; "credentials" := VStr "include"]} ] [])))
    1 "credentials"
  = Some (VStr "include").
Proof.
  refine (mungOptionsForFetch_credentials sample_JSON_stringify sample_serializeQueryParams
            [ {["url" := VStr "/widgets"; "credentials" := VStr "include"]} ] [] 0
            {["url" := VStr "/widgets"; "credentials" := VStr "include"]}
            (sample_adapter VUndef) _ _ _ _ (surjective_pairing _)).
  - reflexivity.
  - split; left; reflexivity.
Defined.


Lemma mungOptionsForFetch_frame_witness :
  heap (snd (mungOptionsForFetch sample_JSON_stringify sample_serializeQueryParams 0
               (sample_adapter VUndef)
               (State [ {["url" := VStr "/widgets"; "type" := VStr "POST"; "data" := VRef 1]};
                        {["name" := VStr "a"]} ] []))) !! 0
  = Some {["url" := VStr "/widgets"; "type" := VStr "POST"; "data" := VRef 1]}.
Proof.
  refine (proj1 (mungOptionsForFetch_frame sample_JSON_stringify
                   sample_serializeQueryParams
                   [ {["url" := VStr "/widgets"; "type" := VStr "POST"; "data" := VRef 1]};
                     {["name" := VStr "a"]} ] [] 0
                   {["url" := VStr "/widgets"; "type" := VStr "POST"; "data" := VRef 1]}
                   (sample_adapter VUndef) _ _ _ _ _ (surjective_pairing _))).
  - reflexivity.
  - split; left; reflexivity.
  - vm_compute. discriminate.
Defined.

Lemma mungOptionsForFetch_json_body_witness :
  ∃ st',
    mungOptionsForFetch sample_JSON_stringify sample_serializeQueryParams 0
      (sample_adapter VUndef)
      (State [ {["url" := VStr "/widgets"; "type" := VStr "PUT"; "data" := VRef 1]}; ∅ ] [])
    = (Val 2, st')
    ∧ field st' 2 "body" = Some (VStr "{}")
    ∧ field st' 2 "url" = Some (VStr "/widgets").
Proof.
  set (o := {["url" := VStr "/widgets"; "type" := VStr "PUT"; "data" := VRef 1]} : obj).
  set (h := [ o; ∅ ]).
  destruct (mungOptionsForFetch_json_body sample_JSON_stringify sample_serializeQueryParams
              h [] 0 o (sample_adapter VUndef)
              (snd (mungOptionsForFetch_headers 0 (sample_adapter VUndef) (State h [])))
              (VRef 1) (VStr "{}")) as (st' & Hrun & Hbody & Hurl);
    [reflexivity | split; left; reflexivity | reflexivity | vm_compute; reflexivity
    | reflexivity | reflexivity | vm_compute; reflexivity |].
  exists st'. split_and!; [exact Hrun | exact Hbody | exact Hurl].
Defined.

Lemma mungOptionsForFetch_propagates_witness :
  fst (mungOptionsForFetch
         (λ _ _, Exn (VErr TypeError "Converting circular structure to JSON"))
         sample_serializeQueryParams 0 (sample_adapter VUndef)
         (State [ {["url" := VStr "/widgets"; "type" := VStr "POST"; "data" := VRef 0]} ] []))
  = Exn (VErr TypeError "Converting circular structure to JSON").
Proof.
  set (o := {["url" := VStr "/widgets"; "type" := VStr "POST"; "data" := VRef 0]} : obj).
  rewrite (proj1 (mungOptionsForFetch_propagates
                    (λ _ _, Exn (VErr TypeError "Converting circular structure to JSON"))
                    sample_serializeQueryParams [o] [] 0 o (sample_adapter VUndef)
                    (snd (mungOptionsForFetch_headers 0 (sample_adapter VUndef)
                            (State [o] [])))
                    (VRef 0) (VErr TypeError "Converting circular structure to JSON")
                    eq_refl (conj (or_introl eq_refl) (or_introl eq_refl))
                    ltac:(vm_compute; reflexivity) eq_refl eq_refl));
    reflexivity.
Defined.

Lemma mungOptionsForFetch_url_missing_witness :
  ∃ msg,
    fst (mungOptionsForFetch sample_JSON_stringify sample_serializeQueryParams 0
           (sample_adapter VUndef)
           (State [ {["data" := VRef 1]}; {["sort" := VStr "id"]} ] []))
    = Exn (VErr TypeError msg).
Proof.
  set (o := {["data" := VRef 1]} : obj).
  set (h := [ o; {["sort" := VStr "id"]} ]).
  destruct (mungOptionsForFetch_url_missing sample_JSON_stringify
              sample_serializeQueryParams h [] 0 o (sample_adapter VUndef)
              (snd (mungOptionsForFetch_headers 0 (sample_adapter VUndef) (State h [])))
              (VRef 1) 1) as [msg Hrun];
    [reflexivity | split; left; reflexivity | reflexivity | vm_compute; reflexivity
    | reflexivity | reflexivity | vm_compute; reflexivity | discriminate
    | discriminate | discriminate |].
  exists msg. by rewrite Hrun.
Defined.

Lemma mungOptionsForFetch_null_headers_witness :
  ∃ msg,
    fst (mungOptionsForFetch sample_JSON_stringify sample_serializeQueryParams 0
           (sample_adapter VUndef)
           (State [ {["url" := VStr "/widgets"; "type" := VStr "POST"; "data" := VRef 1;
                      "headers" := VNull]};
                    {["name" := VStr "a"]} ] []))
    = Exn (VErr TypeError msg).
Proof.
  set (st := State [ {["url" := VStr "/widgets"; "type" := VStr "POST"; "data" := VRef 1;
                       "headers" := VNull]};
                     {["name" := VStr "a"]} ] []).
  set (st1 := snd (mungOptionsForFetch_headers 0 (sample_adapter VUndef) st)).
  set (h2 := heap (snd (mungOptionsForFetch_data sample_JSON_stringify
                          sample_serializeQueryParams 2 st1))).
  destruct (mungOptionsForFetch_null_headers sample_JSON_stringify
              sample_serializeQueryParams 0 (sample_adapter VUndef) st 2 st1 h2 []
              (default ∅ (h2 !! 2))) as [msg Hrun];
    [vm_compute; reflexivity..|].
  exists msg. by rewrite Hrun.
Defined.

Lemma mungOptionsForFetch_no_contentType_witness :
  fst (mungOptionsForFetch sample_JSON_stringify sample_serializeQueryParams 0
         (sample_adapter VUndef)
         (State [ {["url" := VStr "/widgets/1"; "type" := VStr "DELETE"]} ] []))
  = Val 1
  ∧ field (snd (mungOptionsForFetch sample_JSON_stringify sample_serializeQueryParams 0
                  (sample_adapter VUndef)
                  (State [ {["url" := VStr "/widgets/1"; "type" := VStr "DELETE"]} ] [])))
      1 "headers" = None.
Proof.
  set (st := State [ {["url" := VStr "/widgets/1"; "type" := VStr "DELETE"]} ] []).
  set (st1 := snd (mungOptionsForFetch_headers 0 (sample_adapter VUndef) st)).
  set (h2 := heap (snd (mungOptionsForFetch_data sample_JSON_stringify
                          sample_serializeQueryParams 1 st1))).
  rewrite (mungOptionsForFetch_no_contentType sample_JSON_stringify
             sample_serializeQueryParams 0 (sample_adapter VUndef) st 1 st1 h2 []
             (default ∅ (h2 !! 1)));
    [| vm_compute; reflexivity | vm_compute; reflexivity | vm_compute; reflexivity
     | right; vm_compute; reflexivity].
  split; vm_compute; reflexivity.
Defined.


Lemma mungOptionsForFetch_get_pure_witness :
  unchanged
    (State [ {["url" := VStr "/widgets"; "data" := VRef 1; "headers" := VRef 2]};
             {["sort" := VStr "id"]};
             {["X" := VStr "caller"]} ] [])
    (snd (mungOptionsForFetch sample_JSON_stringify sample_serializeQueryParams 0
            (sample_adapter VUndef)
            (State [ {["url" := VStr "/widgets"; "data" := VRef 1; "headers" := VRef 2]};
                     {["sort" := VStr "id"]};
                     {["X" := VStr "caller"]} ] []))).
Proof.
  refine (proj1 (mungOptionsForFetch_get_pure sample_JSON_stringify
                   sample_serializeQueryParams
                   [ {["url" := VStr "/widgets"; "data" := VRef 1; "headers" := VRef 2]};
                     {["sort" := VStr "id"]};
                     {["X" := VStr "caller"]} ] [] 0
                   {["url" := VStr "/widgets"; "data" := VRef 1; "headers" := VRef 2]}
                   (sample_adapter VUndef) _ _ _ _ _ (surjective_pairing _)));
    reflexivity.
Defined.

Lemma ajaxOptions_descriptor_witness :
  field (snd (ajaxOptions sample_JSON_stringify sample_serializeQueryParams
                (sample_adapter VUndef) "/widgets" "" (Some 0)
                (State [ {["url" := VStr "/other"; "type" := VStr "POST"]} ] [])))
    2 "method"
  = Some (VStr "GET").
Proof.
  set (run := ajaxOptions sample_JSON_stringify sample_serializeQueryParams
                (sample_adapter VUndef) "/widgets" "" (Some 0)
                (State [ {["url" := VStr "/other"; "type" := VStr "POST"]} ] [])).
  destruct (ajaxOptions_descriptor sample_JSON_stringify sample_serializeQueryParams
              (sample_adapter VUndef) "/widgets" ""
              [ {["url" := VStr "/other"; "type" := VStr "POST"]} ] [] 0
              {["url" := VStr "/other"; "type" := VStr "POST"]} (fst run) (snd run))
    as (_ & Hmethod & _);
    [reflexivity | split; left; reflexivity | apply surjective_pairing |].
  exact Hmethod.
Defined.

Lemma ajaxOptions_without_options_witness :
  ∃ st',
    ajaxOptions sample_JSON_stringify sample_serializeQueryParams (sample_adapter VUndef)
      "/widgets" "GET" None (State [] [])
    = (Val 2, st')
    ∧ field st' 2 "url" = Some (VStr "/widgets")
    ∧ field st' 2 "method" = Some (VStr "GET").
Proof.
  destruct (ajaxOptions_without_options sample_JSON_stringify sample_serializeQueryParams
              (sample_adapter VUndef) "/widgets" "GET" [] [])
    as (st' & Hrun & Hurl & _ & Hmethod & _); [left; reflexivity|].
  exists st'. split_and!; [exact Hrun | exact Hurl | exact Hmethod].
Defined.
